(** * Browser front-end scripts: a shallow embedding

    The repository holds independent browser scripts: a shared UI helper
    (validation, toasts, HTTP helpers), a photo editor, a video editor with
    a status-polling loop, a rock-paper-scissors game and a country page
    with a population counter.

    JavaScript runs every event handler to completion, so each handler (and
    each continuation after an [await]) is embedded as one atomic step of a
    state machine over the page's global variables.  A step also returns
    the list of effects it performed, in program order.

    Conventions: a variable that may be [null] or [undefined] is an
    [option]; numbers that the scripts only compare or count are in [Z],
    doubles that are only carried along are the rationals they denote;
    DOM lookups are taken to succeed, and of the DOM only the properties
    that handlers set to steer the user (hidden sections, disabled buttons,
    status text, progress) are kept. *)

From Stdlib Require Import ZArith QArith List String Bool Lia DecimalString.
Import ListNotations.
Open Scope string_scope.
Open Scope Z_scope.

(* ====================================================================== *)
(** * Part I: definitions                                                  *)
(* ====================================================================== *)

(** ** JavaScript values used by the scripts *)

(** Strict equality of two strings. *)
Notation "a === b" := (String.eqb a b) (at level 70, no associativity).

(** A variable holding a string, [null] or [undefined] is an
    [option string]; only the empty string and the absent value are falsy. *)
Definition truthy (v : option string) : bool :=
  match v with
  | Some s => negb (s === "")
  | None => false
  end.

(** [v || d] for a string-or-absent [v]. *)
Definition or_default (v : option string) (d : string) : string :=
  match v with
  | Some s => if s === "" then d else s
  | None => d
  end.

(** A variable holding a timer handle or [null]; [0] is the falsy number. *)
Definition truthy_handle (v : option Z) : bool :=
  match v with
  | Some n => negb (n =? 0)
  | None => false
  end.

(** Template-literal rendering of an integer. *)
Definition show_int (n : Z) : string := NilZero.string_of_int (Z.to_int n).

(** [Array.prototype.includes] on an array of strings. *)
Definition includes (l : list string) (x : string) : bool :=
  existsb (String.eqb x) l.

(** The part of a DOM [File] the scripts read. *)
Record File := {
  file_name : string;
  file_type : string;
  file_size : Z
}.

(** ** Rock-paper-scissors (12-spanish-rock-paper-scissors.js, first part) *)

Record Score := {
  wins : Z;
  losses : Z;
  ties : Z
}.

(** [score] when local storage holds none. *)
Definition score0 : Score := {| wins := 0; losses := 0; ties := 0 |}.

(** Doubles are rationals: the two thresholds are the IEEE-754 results of
    [1 / 3] and [2 / 3], and [Math.random()] is a double in [0, 1). *)
Definition one_third : Q := 6004799503160661 # 18014398509481984.
Definition two_thirds : Q := 6004799503160661 # 9007199254740992.

Definition Qge_bool (x y : Q) : bool := Qle_bool y x.
Definition Qlt_bool (x y : Q) : bool := negb (Qle_bool y x).

Definition pickComputerMove (randomNumber : Q) : string :=
  if Qge_bool randomNumber 0 && Qlt_bool randomNumber one_third then "Rock"
  else if Qge_bool randomNumber one_third && Qlt_bool randomNumber two_thirds
       then "Paper"
  else if Qge_bool randomNumber two_thirds && Qlt_bool randomNumber 1
       then "Scissors"
  else "".

(** Lines 53-81 of [playGame]: the result for a pair of moves. *)
Definition playResult (playerMove computerMove : string) : string :=
  if playerMove === "Scissors" then
    if computerMove === "Rock" then "Perdiste"
    else if computerMove === "Paper" then "Ganaste"
    else if computerMove === "Scissors" then "Empate"
    else ""
  else if playerMove === "Paper" then
    if computerMove === "Rock" then "Ganaste"
    else if computerMove === "Paper" then "Empate"
    else if computerMove === "Scissors" then "Perdiste"
    else ""
  else if playerMove === "Rock" then
    if computerMove === "Rock" then "Empate"
    else if computerMove === "Paper" then "Perdiste"
    else if computerMove === "Scissors" then "Ganaste"
    else ""
  else "".

(** Lines 83-89 of [playGame]. *)
Definition updateScore (result : string) (score : Score) : Score :=
  if result === "Ganaste" then
    {| wins := wins score + 1; losses := losses score; ties := ties score |}
  else if result === "Perdiste" then
    {| wins := wins score; losses := losses score + 1; ties := ties score |}
  else if result === "Empate" then
    {| wins := wins score; losses := losses score; ties := ties score + 1 |}
  else score.

(** [playGame(playerMove)], with the value [Math.random()] returns inside
    [pickComputerMove] as an argument; the result is the new [score] and
    the text written to [.js-result]. *)
Definition playGame (playerMove : string) (randomNumber : Q) (score : Score)
  : Score * string :=
  let computerMove := pickComputerMove randomNumber in
  let result := playResult playerMove computerMove in
  (updateScore result score, result).

Definition moves : list string := ["Rock"; "Paper"; "Scissors"].

(** The pairs in which the player wins. *)
Definition beats (playerMove computerMove : string) : Prop :=
  (playerMove = "Rock" /\ computerMove = "Scissors") \/
  (playerMove = "Paper" /\ computerMove = "Rock") \/
  (playerMove = "Scissors" /\ computerMove = "Paper").

(** ** Shared UI helper (UI handler script) *)

Definition API_BASE_URL : string := "https://localhost:5000".

(** [formatFileSize] computes with [Math.log] and [Math.round] on doubles;
    its text is left to the platform. *)
Class FileSizeFormat := formatFileSize : Z -> string.

Record ValidationResult := {
  valid : bool;
  error : option string
}.

Definition imageTypes : list string :=
  ["image/jpeg"; "image/png"; "image/bmp"; "image/gif"; "image/tiff";
   "image/webp"].
Definition imageMaxSize : Z := 50 * 1024 * 1024.

Definition validateImageFile `{FileSizeFormat} (file : File)
  : ValidationResult :=
  if negb (includes imageTypes (file_type file)) then
    {| valid := false;
       error := Some "Invalid file type. Please upload a JPG, PNG, BMP, GIF, TIFF, or WebP image." |}
  else if file_size file >? imageMaxSize then
    {| valid := false;
       error := Some ("File size exceeds 50MB limit. Your file is "
                      ++ formatFileSize (file_size file) ++ ".") |}
  else {| valid := true; error := None |}.

Definition videoTypes : list string :=
  ["video/mp4"; "video/avi"; "video/quicktime"; "video/x-matroska";
   "video/webm"; "video/x-flv"; "video/x-ms-wmv"].
Definition videoMaxSize : Z := 500 * 1024 * 1024.

Definition validateVideoFile `{FileSizeFormat} (file : File)
  : ValidationResult :=
  if negb (includes videoTypes (file_type file)) then
    {| valid := false;
       error := Some "Invalid file type. Please upload an MP4, AVI, MOV, MKV, WebM, FLV, or WMV video." |}
  else if file_size file >? videoMaxSize then
    {| valid := false;
       error := Some ("File size exceeds 500MB limit. Your file is "
                      ++ formatFileSize (file_size file) ++ ".") |}
  else {| valid := true; error := None |}.

(** ** Browser timers

    [setInterval] and [setTimeout] draw handles from one counter; the HTML
    standard makes every handle greater than zero.  Only repeating timers
    are tracked: a one-shot timer just consumes a handle. *)

Section Timers.
Variable C : Type.

Record Timer := {
  handle : Z;
  callback : C;
  delay : Z
}.

Record Timers := {
  next_handle : Z;
  active : list Timer
}.

Definition timers0 : Timers := {| next_handle := 1; active := [] |}.

Definition add_interval (cb : C) (ms : Z) (t : Timers) : Timers :=
  {| next_handle := next_handle t + 1;
     active := (active t ++ [{| handle := next_handle t; callback := cb;
                                delay := ms |}])%list |}.

Definition take_handle (t : Timers) : Timers :=
  {| next_handle := next_handle t + 1; active := active t |}.

(** [clearInterval(h)]: a [null] or unknown handle is ignored. *)
Definition remove_interval (h : option Z) (t : Timers) : Timers :=
  match h with
  | None => t
  | Some n =>
      {| next_handle := next_handle t;
         active := filter (fun x => negb (handle x =? n)) (active t) |}
  end.

Definition is_active (h : Z) (t : Timers) : bool :=
  existsb (fun x => handle x =? h) (active t).

Definition find_timer (h : Z) (t : Timers) : option Timer :=
  find (fun x => handle x =? h) (active t).

End Timers.

Arguments handle {C} _.
Arguments callback {C} _.
Arguments delay {C} _.
Arguments next_handle {C} _.
Arguments active {C} _.
Arguments timers0 {C}.
Arguments add_interval {C} _ _ _.
Arguments take_handle {C} _.
Arguments remove_interval {C} _ _.
Arguments is_active {C} _ _.
Arguments find_timer {C} _ _.

(** ** The editor page: data *)

Record PhotoEffects := {
  filter_name : string;
  brightness : Q;
  contrast : Q;
  color : Q;
  sharpness : Q
}.

Definition defaultEffects : PhotoEffects :=
  {| filter_name := ""; brightness := 1; contrast := 1; color := 1;
     sharpness := 1 |}.

Inductive ResizeExtra :=
| NoExtra
| ByFilesize (target_mb : option Z)
| ByDimensions (width height : Z) (maintain_aspect : bool).

(** JSON bodies of the requests. *)
Inductive Payload :=
| NoBody
| ProcessBody (upload_id : option string) (filter : option string)
              (effects : PhotoEffects)
| UpscaleBody (upload_id : option string) (resolution quality : string)
| ResizeBody (upload_id : option string) (resize_type : string)
             (extra : ResizeExtra).

(** What a handler does to the outside world, in program order. *)
Inductive Effect :=
| Toast (message type : string) (duration : Z)
| ConsoleError (label detail : string)
| Fetch (method url : string) (body : Payload)
| XhrSend (url : string) (file : File)
| ReadFile (file : File)
| SetInterval (h : Z) (ms : Z)
| ClearInterval (h : option Z)
| Download (href : string).

(** How a request ends: the promise rejects, the server answers outside
    2xx (with the [error] field of its body when there is one), it answers
    with JSON, or it answers 2xx with something else. *)
Inductive Outcome (A : Type) :=
| NetworkFailure (message : string)
| HttpFailure (status : Z) (err : option string)
| HttpJson (body : A)
| HttpOther (status : Z).

Arguments NetworkFailure {A} _.
Arguments HttpFailure {A} _ _.
Arguments HttpJson {A} _.
Arguments HttpOther {A} _.

(** What a handler gets when it reads [.width] and [.height] of
    [response.dimensions] or [response.resolution]: the two numbers, or,
    when the answer has no such object, a [TypeError].  The message of
    that error is worded by the engine, so it is carried here. *)
Inductive Extent :=
| Sized (width height : Z)
| Unsized (thrown : string).

(** The answers to an upload. *)
Record PhotoUploadResponse := {
  photo_upload_id : option string;
  dimensions : Extent
}.

Record VideoUploadResponse := {
  video_upload_id : option string;
  duration : Q;
  resolution : Extent;
  size : Z
}.

(** The message of that [TypeError] in V8. *)
Definition undefined_width_message : string :=
  "Cannot read properties of undefined (reading 'width')".

Record SubmitResponse := { job_id : option string }.

(** A status that is not a string reads as [None]. *)
Record StatusResponse := {
  status : option string;
  progress : option Z;
  status_error : option string
}.

(** A [Response] object read as a JSON answer: every field is absent, and
    its numeric [status] is no string. *)
Definition blankSubmit (_ : Z) : SubmitResponse := {| job_id := None |}.
Definition blankStatus (_ : Z) : StatusResponse :=
  {| status := None; progress := None; status_error := None |}.

Record PhotoState := {
  photo_uploadId : option string;
  photo_jobId : option string;
  photo_originalFile : option File;
  currentEffects : PhotoEffects
}.

Definition photoState0 : PhotoState :=
  {| photo_uploadId := None; photo_jobId := None;
     photo_originalFile := None; currentEffects := defaultEffects |}.

Record Metadata := {
  meta_duration : Q;
  meta_width : Z;
  meta_height : Z;
  meta_size : Z
}.

Record VideoState := {
  uploadId : option string;
  jobId : option string;
  originalFile : option File;
  metadata : option Metadata;
  currentOperation : string;
  selectedResolution : string;
  quality : string;
  resizeMethod : string;
  statusPollInterval : option Z
}.

Definition videoState0 : VideoState :=
  {| uploadId := None; jobId := None; originalFile := None;
     metadata := None; currentOperation := "upscale";
     selectedResolution := "1080p"; quality := "high";
     resizeMethod := "filesize"; statusPollInterval := None |}.

(** The element properties the handlers write: visibility of the status
    sections and the enabled state of the buttons.  Text that no handler
    reads back (file info, status detail, preview) is left out. *)
Record PhotoElements := {
  photo_processBtn_disabled : bool;
  photo_processing_hidden : bool;
  photo_download_hidden : bool
}.

Record VideoElements := {
  upscaleBtn_disabled : bool;
  resizeBtn_disabled : bool;
  processing_hidden : bool;
  download_hidden : bool;
  statusText : string;
  progressPercent : Z
}.

Definition photoElements0 : PhotoElements :=
  {| photo_processBtn_disabled := true; photo_processing_hidden := true;
     photo_download_hidden := true |}.

Definition videoElements0 : VideoElements :=
  {| upscaleBtn_disabled := true; resizeBtn_disabled := true;
     processing_hidden := true; download_hidden := true;
     statusText := ""; progressPercent := 0 |}.

(** The only repeating callback of the page. *)
Inductive Callback := CheckVideoStatus.

Record Page := {
  photoState : PhotoState;
  photoElements : PhotoElements;
  videoState : VideoState;
  videoElements : VideoElements;
  timers : Timers Callback
}.

Definition page0 : Page :=
  {| photoState := photoState0; photoElements := photoElements0;
     videoState := videoState0; videoElements := videoElements0;
     timers := timers0 |}.

(** Field assignments. *)
Definition on_photoState (f : PhotoState -> PhotoState) (p : Page) : Page :=
  {| photoState := f (photoState p); photoElements := photoElements p;
     videoState := videoState p; videoElements := videoElements p;
     timers := timers p |}.
Definition on_photoElements (f : PhotoElements -> PhotoElements) (p : Page)
  : Page :=
  {| photoState := photoState p; photoElements := f (photoElements p);
     videoState := videoState p; videoElements := videoElements p;
     timers := timers p |}.
Definition on_videoState (f : VideoState -> VideoState) (p : Page) : Page :=
  {| photoState := photoState p; photoElements := photoElements p;
     videoState := f (videoState p); videoElements := videoElements p;
     timers := timers p |}.
Definition on_videoElements (f : VideoElements -> VideoElements) (p : Page)
  : Page :=
  {| photoState := photoState p; photoElements := photoElements p;
     videoState := videoState p; videoElements := f (videoElements p);
     timers := timers p |}.
Definition on_timers (f : Timers Callback -> Timers Callback) (p : Page)
  : Page :=
  {| photoState := photoState p; photoElements := photoElements p;
     videoState := videoState p; videoElements := videoElements p;
     timers := f (timers p) |}.

Definition set_photo_uploadId (v : option string) (s : PhotoState) :=
  {| photo_uploadId := v; photo_jobId := photo_jobId s;
     photo_originalFile := photo_originalFile s;
     currentEffects := currentEffects s |}.
Definition set_photo_jobId (v : option string) (s : PhotoState) :=
  {| photo_uploadId := photo_uploadId s; photo_jobId := v;
     photo_originalFile := photo_originalFile s;
     currentEffects := currentEffects s |}.
Definition set_photo_originalFile (v : option File) (s : PhotoState) :=
  {| photo_uploadId := photo_uploadId s; photo_jobId := photo_jobId s;
     photo_originalFile := v; currentEffects := currentEffects s |}.
Definition set_currentEffects (v : PhotoEffects) (s : PhotoState) :=
  {| photo_uploadId := photo_uploadId s; photo_jobId := photo_jobId s;
     photo_originalFile := photo_originalFile s; currentEffects := v |}.

Definition set_filter_name (v : string) (e : PhotoEffects) :=
  {| filter_name := v; brightness := brightness e; contrast := contrast e;
     color := color e; sharpness := sharpness e |}.
Definition set_brightness (v : Q) (e : PhotoEffects) :=
  {| filter_name := filter_name e; brightness := v; contrast := contrast e;
     color := color e; sharpness := sharpness e |}.
Definition set_contrast (v : Q) (e : PhotoEffects) :=
  {| filter_name := filter_name e; brightness := brightness e; contrast := v;
     color := color e; sharpness := sharpness e |}.
Definition set_color (v : Q) (e : PhotoEffects) :=
  {| filter_name := filter_name e; brightness := brightness e;
     contrast := contrast e; color := v; sharpness := sharpness e |}.
Definition set_sharpness (v : Q) (e : PhotoEffects) :=
  {| filter_name := filter_name e; brightness := brightness e;
     contrast := contrast e; color := color e; sharpness := v |}.

Definition set_photo_processBtn_disabled (v : bool) (e : PhotoElements) :=
  {| photo_processBtn_disabled := v;
     photo_processing_hidden := photo_processing_hidden e;
     photo_download_hidden := photo_download_hidden e |}.
Definition set_photo_processing_hidden (v : bool) (e : PhotoElements) :=
  {| photo_processBtn_disabled := photo_processBtn_disabled e;
     photo_processing_hidden := v;
     photo_download_hidden := photo_download_hidden e |}.
Definition set_photo_download_hidden (v : bool) (e : PhotoElements) :=
  {| photo_processBtn_disabled := photo_processBtn_disabled e;
     photo_processing_hidden := photo_processing_hidden e;
     photo_download_hidden := v |}.

Definition set_uploadId (v : option string) (s : VideoState) :=
  {| uploadId := v; jobId := jobId s; originalFile := originalFile s;
     metadata := metadata s; currentOperation := currentOperation s;
     selectedResolution := selectedResolution s; quality := quality s;
     resizeMethod := resizeMethod s;
     statusPollInterval := statusPollInterval s |}.
Definition set_jobId (v : option string) (s : VideoState) :=
  {| uploadId := uploadId s; jobId := v; originalFile := originalFile s;
     metadata := metadata s; currentOperation := currentOperation s;
     selectedResolution := selectedResolution s; quality := quality s;
     resizeMethod := resizeMethod s;
     statusPollInterval := statusPollInterval s |}.
Definition set_originalFile (v : option File) (s : VideoState) :=
  {| uploadId := uploadId s; jobId := jobId s; originalFile := v;
     metadata := metadata s; currentOperation := currentOperation s;
     selectedResolution := selectedResolution s; quality := quality s;
     resizeMethod := resizeMethod s;
     statusPollInterval := statusPollInterval s |}.
Definition set_metadata (v : option Metadata) (s : VideoState) :=
  {| uploadId := uploadId s; jobId := jobId s;
     originalFile := originalFile s; metadata := v;
     currentOperation := currentOperation s;
     selectedResolution := selectedResolution s; quality := quality s;
     resizeMethod := resizeMethod s;
     statusPollInterval := statusPollInterval s |}.
Definition set_currentOperation (v : string) (s : VideoState) :=
  {| uploadId := uploadId s; jobId := jobId s;
     originalFile := originalFile s; metadata := metadata s;
     currentOperation := v; selectedResolution := selectedResolution s;
     quality := quality s; resizeMethod := resizeMethod s;
     statusPollInterval := statusPollInterval s |}.
Definition set_selectedResolution (v : string) (s : VideoState) :=
  {| uploadId := uploadId s; jobId := jobId s;
     originalFile := originalFile s; metadata := metadata s;
     currentOperation := currentOperation s; selectedResolution := v;
     quality := quality s; resizeMethod := resizeMethod s;
     statusPollInterval := statusPollInterval s |}.
Definition set_quality (v : string) (s : VideoState) :=
  {| uploadId := uploadId s; jobId := jobId s;
     originalFile := originalFile s; metadata := metadata s;
     currentOperation := currentOperation s;
     selectedResolution := selectedResolution s; quality := v;
     resizeMethod := resizeMethod s;
     statusPollInterval := statusPollInterval s |}.
Definition set_resizeMethod (v : string) (s : VideoState) :=
  {| uploadId := uploadId s; jobId := jobId s;
     originalFile := originalFile s; metadata := metadata s;
     currentOperation := currentOperation s;
     selectedResolution := selectedResolution s; quality := quality s;
     resizeMethod := v; statusPollInterval := statusPollInterval s |}.
Definition set_statusPollInterval (v : option Z) (s : VideoState) :=
  {| uploadId := uploadId s; jobId := jobId s;
     originalFile := originalFile s; metadata := metadata s;
     currentOperation := currentOperation s;
     selectedResolution := selectedResolution s; quality := quality s;
     resizeMethod := resizeMethod s; statusPollInterval := v |}.

Definition set_upscaleBtn_disabled (v : bool) (e : VideoElements) :=
  {| upscaleBtn_disabled := v; resizeBtn_disabled := resizeBtn_disabled e;
     processing_hidden := processing_hidden e;
     download_hidden := download_hidden e; statusText := statusText e;
     progressPercent := progressPercent e |}.
Definition set_resizeBtn_disabled (v : bool) (e : VideoElements) :=
  {| upscaleBtn_disabled := upscaleBtn_disabled e; resizeBtn_disabled := v;
     processing_hidden := processing_hidden e;
     download_hidden := download_hidden e; statusText := statusText e;
     progressPercent := progressPercent e |}.
Definition set_processing_hidden (v : bool) (e : VideoElements) :=
  {| upscaleBtn_disabled := upscaleBtn_disabled e;
     resizeBtn_disabled := resizeBtn_disabled e; processing_hidden := v;
     download_hidden := download_hidden e; statusText := statusText e;
     progressPercent := progressPercent e |}.
Definition set_download_hidden (v : bool) (e : VideoElements) :=
  {| upscaleBtn_disabled := upscaleBtn_disabled e;
     resizeBtn_disabled := resizeBtn_disabled e;
     processing_hidden := processing_hidden e; download_hidden := v;
     statusText := statusText e; progressPercent := progressPercent e |}.
Definition set_statusText (v : string) (e : VideoElements) :=
  {| upscaleBtn_disabled := upscaleBtn_disabled e;
     resizeBtn_disabled := resizeBtn_disabled e;
     processing_hidden := processing_hidden e;
     download_hidden := download_hidden e; statusText := v;
     progressPercent := progressPercent e |}.
Definition set_progressPercent (v : Z) (e : VideoElements) :=
  {| upscaleBtn_disabled := upscaleBtn_disabled e;
     resizeBtn_disabled := resizeBtn_disabled e;
     processing_hidden := processing_hidden e;
     download_hidden := download_hidden e; statusText := statusText e;
     progressPercent := v |}.

(** ** Handlers as state transformers that log their effects *)

Definition M (A : Type) : Type := Page -> A * Page * list Effect.

Definition ret {A : Type} (a : A) : M A := fun p => (a, p, []).

Definition bind {A B : Type} (m : M A) (k : A -> M B) : M B :=
  fun p =>
    let '(a, p1, t1) := m p in
    let '(b, p2, t2) := k a p1 in
    (b, p2, (t1 ++ t2)%list).

Notation "x <- m ;; k" := (bind m (fun x => k))
  (at level 61, m at next level, right associativity).
Notation "m ;; k" := (bind m (fun _ => k))
  (at level 61, right associativity).

Definition emit (e : Effect) : M unit := fun p => (tt, p, [e]).
Definition read {A : Type} (f : Page -> A) : M A := fun p => (f p, p, []).
Definition update (f : Page -> Page) : M unit := fun p => (tt, f p, []).

(** The page and the effects a handler leaves behind. *)
Definition page_after {A : Type} (m : M A) (p : Page) : Page :=
  snd (fst (m p)).
Definition effects_of {A : Type} (m : M A) (p : Page) : list Effect :=
  snd (m p).

Definition setInterval (cb : Callback) (ms : Z) : M Z :=
  h <- read (fun p => next_handle (timers p)) ;;
  update (on_timers (add_interval cb ms)) ;;
  emit (SetInterval h ms) ;;
  ret h.

Definition clearInterval (h : option Z) : M unit :=
  update (on_timers (remove_interval h)) ;;
  emit (ClearInterval h).

Definition setTimeout : M unit := update (on_timers take_handle).

(** *** UI helper functions *)

Definition showToast (message type : string) (duration : Z) : M unit :=
  emit (Toast message type duration) ;;
  setTimeout.

(** [handleError(error, context)] for an [Error] with message [message]. *)
Definition handleError (message context : string) : M unit :=
  emit (ConsoleError ("Error during " ++ context ++ ":") message) ;;
  showToast
    (if message === "" then "Failed to " ++ context ++ ". Please try again."
     else message)
    "error" 5000.

(** [apiRequest] up to its [await fetch]. *)
Definition apiRequest (endpoint method : string) (body : Payload) : M unit :=
  emit (Fetch method (API_BASE_URL ++ endpoint) body).

(** [apiRequest] after the answer: [inl] is the message of the error it
    throws, [inr] the value it returns. *)
Definition apiRequest_settled {A : Type} (blank : Z -> A) (o : Outcome A)
  : M (string + A) :=
  match o with
  | NetworkFailure m =>
      emit (ConsoleError "API request failed:" m) ;; ret (inl m)
  | HttpFailure st e =>
      let m := or_default e ("HTTP error! status: " ++ show_int st) in
      emit (ConsoleError "API request failed:" m) ;; ret (inl m)
  | HttpJson b => ret (inr b)
  | HttpOther st => ret (inr (blank st))
  end.

(** [uploadFile] up to [xhr.send]. *)
Definition uploadFile (endpoint : string) (file : File) : M unit :=
  emit (XhrSend (API_BASE_URL ++ endpoint) file).

(** How the promise of [uploadFile] settles. *)
Definition uploadFile_settled {A : Type} (o : Outcome A) : string + A :=
  match o with
  | NetworkFailure _ => inl "Network error during upload"
  | HttpFailure st e =>
      inl (or_default e ("Upload failed with status " ++ show_int st))
  | HttpJson b => inr b
  | HttpOther _ => inl "Invalid JSON response"
  end.

(** A value interpolated into a message. *)
Definition render (v : option string) : string :=
  match v with
  | Some s => s
  | None => "undefined"
  end.

(** ** Photo editor (photo-editor.js)

    An [async] function is split at its [await]: [f] is the part that runs
    when it is called, [f_resumed] the part that runs when the awaited
    request has settled. *)

Definition resetEffects : M unit :=
  update (on_photoState (set_currentEffects defaultEffects)) ;;
  showToast "Effects reset to default" "info" 2000.

Definition resetPhotoEditor : M unit :=
  update (on_photoState (set_photo_uploadId None)) ;;
  update (on_photoState (set_photo_jobId None)) ;;
  update (on_photoState (set_photo_originalFile None)) ;;
  resetEffects ;;
  update (on_photoElements (set_photo_processBtn_disabled true)) ;;
  update (on_photoElements (set_photo_processing_hidden true)) ;;
  update (on_photoElements (set_photo_download_hidden true)).

Definition handlePhotoFile `{FileSizeFormat} (file : File) : M unit :=
  let validation := validateImageFile file in
  if negb (valid validation) then
    showToast (render (error validation)) "error" 5000
  else
    update (on_photoState (set_photo_originalFile (Some file))) ;;
    emit (ReadFile file) ;;
    showToast "Uploading photo..." "info" 3000 ;;
    uploadFile "/api/photo/upload" file.

(** The upload handle is stored first; writing the dimensions into the
    info text throws when the answer has none, and the [catch] then
    reports and resets like for a failed upload. *)
Definition handlePhotoFile_resumed (o : Outcome PhotoUploadResponse)
  : M unit :=
  match uploadFile_settled o with
  | inr response =>
      update (on_photoState (set_photo_uploadId (photo_upload_id response))) ;;
      match dimensions response with
      | Sized _ _ =>
          update (on_photoElements (set_photo_processBtn_disabled false)) ;;
          showToast "Photo uploaded successfully!" "success" 5000
      | Unsized thrown =>
          handleError thrown "upload photo" ;;
          resetPhotoEditor
      end
  | inl message =>
      handleError message "upload photo" ;;
      resetPhotoEditor
  end.

Definition processPhoto : M unit :=
  ps <- read photoState ;;
  if negb (truthy (photo_uploadId ps)) then
    showToast "Please upload a photo first" "error" 5000
  else
    update (on_photoElements (set_photo_processing_hidden false)) ;;
    update (on_photoElements (set_photo_download_hidden true)) ;;
    update (on_photoElements (set_photo_processBtn_disabled true)) ;;
    let fx := currentEffects ps in
    apiRequest "/api/photo/process" "POST"
      (ProcessBody (photo_uploadId ps)
         (if filter_name fx === "" then None else Some (filter_name fx))
         fx).

Definition processPhoto_resumed (o : Outcome SubmitResponse) : M unit :=
  r <- apiRequest_settled blankSubmit o ;;
  match r with
  | inr response =>
      update (on_photoState (set_photo_jobId (job_id response))) ;;
      update (on_photoElements (set_photo_processing_hidden true)) ;;
      update (on_photoElements (set_photo_download_hidden false)) ;;
      update (on_photoElements (set_photo_processBtn_disabled false)) ;;
      showToast "Photo processed successfully!" "success" 5000
  | inl message =>
      update (on_photoElements (set_photo_processing_hidden true)) ;;
      update (on_photoElements (set_photo_processBtn_disabled false)) ;;
      handleError message "process photo"
  end.

Definition downloadPhoto : M unit :=
  ps <- read photoState ;;
  if negb (truthy (photo_jobId ps)) then
    showToast "No processed photo available" "error" 5000
  else
    emit (Download (API_BASE_URL ++ "/api/photo/download/"
                    ++ render (photo_jobId ps))) ;;
    showToast "Download started!" "success" 5000.

(** ** Video editor (12-spanish-rock-paper-scissors.js, second part) *)

Definition resetVideoEditor : M unit :=
  update (on_videoState (set_uploadId None)) ;;
  update (on_videoState (set_jobId None)) ;;
  update (on_videoState (set_originalFile None)) ;;
  update (on_videoState (set_metadata None)) ;;
  vs <- read videoState ;;
  (if truthy_handle (statusPollInterval vs) then
     clearInterval (statusPollInterval vs) ;;
     update (on_videoState (set_statusPollInterval None))
   else ret tt) ;;
  update (on_videoElements (set_upscaleBtn_disabled true)) ;;
  update (on_videoElements (set_resizeBtn_disabled true)) ;;
  update (on_videoElements (set_processing_hidden true)) ;;
  update (on_videoElements (set_download_hidden true)).

Definition handleVideoFile `{FileSizeFormat} (file : File) : M unit :=
  let validation := validateVideoFile file in
  if negb (valid validation) then
    showToast (render (error validation)) "error" 5000
  else
    update (on_videoState (set_originalFile (Some file))) ;;
    emit (ReadFile file) ;;
    showToast "Uploading video..." "info" 3000 ;;
    uploadFile "/api/video/upload" file.

(** The upload handle is stored first; building the metadata throws when
    the answer has no [resolution], and the [catch] then reports and
    resets like for a failed upload. *)
Definition handleVideoFile_resumed (o : Outcome VideoUploadResponse)
  : M unit :=
  match uploadFile_settled o with
  | inr response =>
      update (on_videoState (set_uploadId (video_upload_id response))) ;;
      match resolution response with
      | Sized width height =>
          update (on_videoState (set_metadata (Some
            {| meta_duration := duration response;
               meta_width := width;
               meta_height := height;
               meta_size := size response |}))) ;;
          update (on_videoElements (set_upscaleBtn_disabled false)) ;;
          update (on_videoElements (set_resizeBtn_disabled false)) ;;
          showToast "Video uploaded successfully!" "success" 5000
      | Unsized thrown =>
          handleError thrown "upload video" ;;
          resetVideoEditor
      end
  | inl message =>
      handleError message "upload video" ;;
      resetVideoEditor
  end.

(** [checkVideoStatus] up to its [await]: the guard and the request. *)
Definition checkVideoStatus : M unit :=
  vs <- read videoState ;;
  if negb (truthy (jobId vs)) then ret tt
  else apiRequest ("/api/video/status/" ++ render (jobId vs)) "GET" NoBody.

Definition status_is (v : option string) (s : string) : bool :=
  match v with
  | Some x => x === s
  | None => false
  end.

(** [response.progress || 0]. *)
Definition progress_or_0 (v : option Z) : Z :=
  match v with
  | Some n => n
  | None => 0
  end.

Definition checkVideoStatus_resumed (o : Outcome StatusResponse) : M unit :=
  r <- apiRequest_settled blankStatus o ;;
  match r with
  | inr response =>
      update (on_videoElements
                (set_progressPercent (progress_or_0 (progress response)))) ;;
      if status_is (status response) "processing" then
        update (on_videoElements (set_statusText "Processing video..."))
      else if status_is (status response) "completed" then
        vs <- read videoState ;;
        clearInterval (statusPollInterval vs) ;;
        update (on_videoState (set_statusPollInterval None)) ;;
        update (on_videoElements (set_processing_hidden true)) ;;
        update (on_videoElements (set_download_hidden false)) ;;
        update (on_videoElements (set_upscaleBtn_disabled false)) ;;
        update (on_videoElements (set_resizeBtn_disabled false)) ;;
        showToast "Video processed successfully!" "success" 5000
      else if status_is (status response) "failed" then
        vs <- read videoState ;;
        clearInterval (statusPollInterval vs) ;;
        update (on_videoState (set_statusPollInterval None)) ;;
        update (on_videoElements (set_processing_hidden true)) ;;
        update (on_videoElements (set_upscaleBtn_disabled false)) ;;
        update (on_videoElements (set_resizeBtn_disabled false)) ;;
        showToast (or_default (status_error response)
                     "Video processing failed") "error" 5000
      else ret tt
  | inl message =>
      emit (ConsoleError "Error checking video status:" message)
  end.

Definition startStatusPolling : M unit :=
  vs <- read videoState ;;
  (if truthy_handle (statusPollInterval vs) then
     clearInterval (statusPollInterval vs)
   else ret tt) ;;
  h <- setInterval CheckVideoStatus 2000 ;;
  update (on_videoState (set_statusPollInterval (Some h))) ;;
  checkVideoStatus.

Definition upscaleVideo : M unit :=
  vs <- read videoState ;;
  if negb (truthy (uploadId vs)) then
    showToast "Please upload a video first" "error" 5000
  else
    update (on_videoElements (set_processing_hidden false)) ;;
    update (on_videoElements (set_download_hidden true)) ;;
    update (on_videoElements (set_upscaleBtn_disabled true)) ;;
    update (on_videoElements (set_statusText "Starting video upscaling...")) ;;
    update (on_videoElements (set_progressPercent 0)) ;;
    apiRequest "/api/video/upscale" "POST"
      (UpscaleBody (uploadId vs) (selectedResolution vs) (quality vs)).

Definition upscaleVideo_resumed (o : Outcome SubmitResponse) : M unit :=
  r <- apiRequest_settled blankSubmit o ;;
  match r with
  | inr response =>
      update (on_videoState (set_jobId (job_id response))) ;;
      startStatusPolling ;;
      showToast "Video upscaling started" "info" 5000
  | inl message =>
      update (on_videoElements (set_processing_hidden true)) ;;
      update (on_videoElements (set_upscaleBtn_disabled false)) ;;
      handleError message "upscale video"
  end.

(** What [parseInt] read from the resize inputs ([None] is [NaN]). *)
Record ResizeForm := {
  targetFilesize : option Z;
  resizeWidth : option Z;
  resizeHeight : option Z;
  maintainAspect : bool
}.

(** [parseInt(v) || d]. *)
Definition int_or (v : option Z) (d : Z) : Z :=
  match v with
  | Some n => if n =? 0 then d else n
  | None => d
  end.

Definition resizeVideo (form : ResizeForm) : M unit :=
  vs <- read videoState ;;
  if negb (truthy (uploadId vs)) then
    showToast "Please upload a video first" "error" 5000
  else
    update (on_videoElements (set_processing_hidden false)) ;;
    update (on_videoElements (set_download_hidden true)) ;;
    update (on_videoElements (set_resizeBtn_disabled true)) ;;
    update (on_videoElements (set_statusText "Starting video resizing...")) ;;
    update (on_videoElements (set_progressPercent 0)) ;;
    let extra :=
      if resizeMethod vs === "filesize" then
        ByFilesize (targetFilesize form)
      else if resizeMethod vs === "dimensions" then
        ByDimensions (int_or (resizeWidth form) 1280)
                     (int_or (resizeHeight form) 720) (maintainAspect form)
      else NoExtra in
    apiRequest "/api/video/resize" "POST"
      (ResizeBody (uploadId vs) (resizeMethod vs) extra).

Definition resizeVideo_resumed (o : Outcome SubmitResponse) : M unit :=
  r <- apiRequest_settled blankSubmit o ;;
  match r with
  | inr response =>
      update (on_videoState (set_jobId (job_id response))) ;;
      startStatusPolling ;;
      showToast "Video resizing started" "info" 5000
  | inl message =>
      update (on_videoElements (set_processing_hidden true)) ;;
      update (on_videoElements (set_resizeBtn_disabled false)) ;;
      handleError message "resize video"
  end.

Definition downloadVideo : M unit :=
  vs <- read videoState ;;
  if negb (truthy (jobId vs)) then
    showToast "No processed video available" "error" 5000
  else
    emit (Download (API_BASE_URL ++ "/api/video/download/"
                    ++ render (jobId vs))) ;;
    showToast "Download started!" "success" 5000.

(** The [beforeunload] listener. *)
Definition beforeunload : M unit :=
  vs <- read videoState ;;
  if truthy_handle (statusPollInterval vs) then
    clearInterval (statusPollInterval vs)
  else ret tt.

(** ** The event loop of the editor page *)

Inductive Event :=
| PhotoFileSelected (file : File)
| PhotoUploadSettled (o : Outcome PhotoUploadResponse)
| FilterChange (v : string)
| BrightnessInput (v : Q)
| ContrastInput (v : Q)
| ColorInput (v : Q)
| SharpnessInput (v : Q)
| ResetEffectsClick
| ProcessClick
| ProcessSettled (o : Outcome SubmitResponse)
| PhotoDownloadClick
| PhotoRemoveClick
| VideoFileSelected (file : File)
| VideoUploadSettled (o : Outcome VideoUploadResponse)
| TabUpscaleClick
| TabResizeClick
| ResolutionClick (v : string)
| QualityChange (v : string)
| ResizeMethodChange (v : string)
| UpscaleClick
| UpscaleSettled (o : Outcome SubmitResponse)
| ResizeClick (form : ResizeForm)
| ResizeSettled (o : Outcome SubmitResponse)
| IntervalFires (h : Z)
| StatusSettled (o : Outcome StatusResponse)
| VideoDownloadClick
| VideoRemoveClick
| ToastTimeout
| BeforeUnload.

(** A repeating timer runs its callback only while it is registered. *)
Definition fire (h : Z) : M unit :=
  t <- read timers ;;
  match find_timer h t with
  | Some tm => match callback tm with CheckVideoStatus => checkVideoStatus end
  | None => ret tt
  end.

Definition on_effects (f : PhotoEffects -> PhotoEffects) : M unit :=
  update (on_photoState (fun s => set_currentEffects (f (currentEffects s)) s)).

(** One task of the event loop.  A settled request is accepted at any
    time; the real page only sees it after the matching request. *)
Definition step `{FileSizeFormat} (e : Event) : M unit :=
  match e with
  | PhotoFileSelected file => handlePhotoFile file
  | PhotoUploadSettled o => handlePhotoFile_resumed o
  | FilterChange v => on_effects (set_filter_name v)
  | BrightnessInput v => on_effects (set_brightness v)
  | ContrastInput v => on_effects (set_contrast v)
  | ColorInput v => on_effects (set_color v)
  | SharpnessInput v => on_effects (set_sharpness v)
  | ResetEffectsClick => resetEffects
  | ProcessClick => processPhoto
  | ProcessSettled o => processPhoto_resumed o
  | PhotoDownloadClick => downloadPhoto
  | PhotoRemoveClick => resetPhotoEditor
  | VideoFileSelected file => handleVideoFile file
  | VideoUploadSettled o => handleVideoFile_resumed o
  | TabUpscaleClick => update (on_videoState (set_currentOperation "upscale"))
  | TabResizeClick => update (on_videoState (set_currentOperation "resize"))
  | ResolutionClick v => update (on_videoState (set_selectedResolution v))
  | QualityChange v => update (on_videoState (set_quality v))
  | ResizeMethodChange v => update (on_videoState (set_resizeMethod v))
  | UpscaleClick => upscaleVideo
  | UpscaleSettled o => upscaleVideo_resumed o
  | ResizeClick form => resizeVideo form
  | ResizeSettled o => resizeVideo_resumed o
  | IntervalFires h => fire h
  | StatusSettled o => checkVideoStatus_resumed o
  | VideoDownloadClick => downloadVideo
  | VideoRemoveClick => resetVideoEditor
  | ToastTimeout => setTimeout
  | BeforeUnload => beforeunload
  end.

Fixpoint run `{FileSizeFormat} (evs : list Event) : M unit :=
  match evs with
  | [] => ret tt
  | e :: rest => step e ;; run rest
  end.

(** ** Country explorer (appAlm.js)

    The population is a double that grows by double arithmetic, and the
    country table lives in another script: both are taken as given. *)

(** The fields of a table entry that steer [selectCountry];
    [coordinates] is [None] when the entry has no coordinates string. *)
Record Country (number : Type) := {
  country : string;
  coordinates : option string;
  population : number
}.

Arguments country {number} _.
Arguments coordinates {number} _.
Arguments population {number} _.

Class CountryEnv := {
  number : Type;
  number_zero : number;
  (** [p + p * GROWTH_PER_SECOND] *)
  grow : number -> number;
  countriesData : list (Country number)
}.

Inductive CountryCallback := LoadCryptocurrencyRates | PopulationTick.

Inductive CountryEffect `{CountryEnv} :=
| CountryConsoleError (label detail : string)
| FetchFlag (countryName : string)
| FetchCryptoRates
| ShowPopulation (p : number)
| CountrySetInterval (h : Z) (ms : Z)
| CountryClearInterval (h : option Z).

Record CountryPage `{CountryEnv} := {
  populationInterval : option Z;
  currentPopulation : number;
  countryTimers : Timers CountryCallback
}.

Definition countryPage0 `{CountryEnv} : CountryPage :=
  {| populationInterval := None; currentPopulation := number_zero;
     countryTimers := timers0 |}.

Definition startPopulationCounter `{CountryEnv} (initialPopulation : number)
  (p : CountryPage) : CountryPage * list CountryEffect :=
  let cleared := truthy_handle (populationInterval p) in
  let t1 := if cleared
            then remove_interval (populationInterval p) (countryTimers p)
            else countryTimers p in
  let h := next_handle t1 in
  ({| populationInterval := Some h;
      currentPopulation := initialPopulation;
      countryTimers := add_interval PopulationTick 1000 t1 |},
   (if cleared then [CountryClearInterval (populationInterval p)] else [])
   ++ [ShowPopulation initialPopulation; CountrySetInterval h 1000])%list.

(** [loadCountryFlag] sends its request, then [loadCountryMap] splits the
    coordinates outside its [try]: for an entry without a coordinates
    string that throws, and [selectCountry] ends before it starts the
    counter. *)
Definition selectCountry `{CountryEnv} (countryName : string)
  (p : CountryPage) : CountryPage * list CountryEffect :=
  match find (fun c => country c === countryName) countriesData with
  | None => (p, [CountryConsoleError "Country not found:" countryName])
  | Some c =>
      match coordinates c with
      | None => (p, [FetchFlag (country c)])
      | Some _ =>
          let '(p', effs) := startPopulationCounter (population c) p in
          (p', FetchFlag (country c) :: effs)
      end
  end.

(** The body of the two repeating callbacks. *)
Definition runCallback `{CountryEnv} (cb : CountryCallback) (p : CountryPage)
  : CountryPage * list CountryEffect :=
  match cb with
  | LoadCryptocurrencyRates => (p, [FetchCryptoRates])
  | PopulationTick =>
      let n := grow (currentPopulation p) in
      ({| populationInterval := populationInterval p;
          currentPopulation := n;
          countryTimers := countryTimers p |}, [ShowPopulation n])
  end.

Definition countryLoaded `{CountryEnv} (p : CountryPage)
  : CountryPage * list CountryEffect :=
  let h := next_handle (countryTimers p) in
  ({| populationInterval := populationInterval p;
      currentPopulation := currentPopulation p;
      countryTimers := add_interval LoadCryptocurrencyRates 60000
                         (countryTimers p) |},
   [FetchCryptoRates; CountrySetInterval h 60000]).

Definition countryUnload `{CountryEnv} (p : CountryPage)
  : CountryPage * list CountryEffect :=
  if truthy_handle (populationInterval p) then
    ({| populationInterval := populationInterval p;
        currentPopulation := currentPopulation p;
        countryTimers := remove_interval (populationInterval p)
                           (countryTimers p) |},
     [CountryClearInterval (populationInterval p)])
  else (p, []).

Inductive CountryEvent :=
| DOMContentLoaded
| CountryClicked (countryName : string)
| CountryIntervalFires (h : Z)
| CountryBeforeUnload.

Definition countryStep `{CountryEnv} (e : CountryEvent) (p : CountryPage)
  : CountryPage * list CountryEffect :=
  match e with
  | DOMContentLoaded => countryLoaded p
  | CountryClicked countryName => selectCountry countryName p
  | CountryIntervalFires h =>
      match find_timer h (countryTimers p) with
      | Some tm => runCallback (callback tm) p
      | None => (p, [])
      end
  | CountryBeforeUnload => countryUnload p
  end.

Fixpoint countryRun `{CountryEnv} (evs : list CountryEvent) (p : CountryPage)
  : CountryPage :=
  match evs with
  | [] => p
  | e :: rest => countryRun rest (fst (countryStep e p))
  end.

Definition is_population (t : Timer CountryCallback) : bool :=
  match callback t with
  | PopulationTick => true
  | LoadCryptocurrencyRates => false
  end.

(** The registered timers that run the population tick. *)
Definition populationTimers `{CountryEnv} (p : CountryPage)
  : list (Timer CountryCallback) :=
  filter is_population (active (countryTimers p)).

(** ** Observations on pages and effect lists *)

(** The status requests of the polling loop. *)
Definition status_url (job : string) : string :=
  API_BASE_URL ++ "/api/video/status/" ++ job.

Fixpoint starts_with (pre s : string) : bool :=
  match pre with
  | EmptyString => true
  | String a pre' =>
      match s with
      | EmptyString => false
      | String b s' => Ascii.eqb a b && starts_with pre' s'
      end
  end.

Definition is_poll (e : Effect) : bool :=
  match e with
  | Fetch _ url _ => starts_with (API_BASE_URL ++ "/api/video/status/") url
  | _ => false
  end.

(** Requests that leave the browser. *)
Definition is_network (e : Effect) : bool :=
  match e with
  | Fetch _ _ _ | XhrSend _ _ => true
  | _ => false
  end.

Definition is_toast (e : Effect) : bool :=
  match e with
  | Toast _ _ _ => true
  | _ => false
  end.

Definition is_download (e : Effect) : bool :=
  match e with
  | Download _ => true
  | _ => false
  end.

Definition is_set_interval (e : Effect) : bool :=
  match e with
  | SetInterval _ _ => true
  | _ => false
  end.

(** The polling loops that are running: the registered repeating timers. *)
Definition polling_loops (p : Page) : list (Timer Callback) :=
  active (timers p).

(** What ties the stored handle to the registered timers. *)
Definition poll_inv (p : Page) : Prop :=
  0 < next_handle (timers p) /\
  (forall h, statusPollInterval (videoState p) = Some h ->
             0 < h < next_handle (timers p)) /\
  (active (timers p) = [] \/
   exists t, active (timers p) = [t] /\
             statusPollInterval (videoState p) = Some (handle t) /\
             delay t = 2000).

(** A poll answer that ends the job. *)
Definition is_terminal (r : StatusResponse) : bool :=
  status_is (status r) "completed" || status_is (status r) "failed".

(** Events whose handler reaches [startStatusPolling]: a submission that the
    server answered with 2xx. *)
Definition starts_polling (e : Event) : bool :=
  match e with
  | UpscaleSettled (HttpJson _) | UpscaleSettled (HttpOther _)
  | ResizeSettled (HttpJson _) | ResizeSettled (HttpOther _) => true
  | _ => false
  end.

(** Events whose handler reaches [clearInterval]: a terminal poll answer,
    an explicit cancellation (remove button, page unload, the reset after
    an upload that failed or whose answer lacks the resolution), or a new
    submission replacing the loop. *)
Definition stops_polling (e : Event) : bool :=
  match e with
  | StatusSettled (HttpJson r) => is_terminal r
  | VideoRemoveClick | BeforeUnload => true
  | VideoUploadSettled o =>
      match uploadFile_settled o with
      | inl _ => true
      | inr response =>
          match resolution response with
          | Unsized _ => true
          | Sized _ _ => false
          end
      end
  | _ => starts_polling e
  end.

(** A request that ends in a thrown error. *)
Definition failed_outcome {A : Type} (o : Outcome A) : bool :=
  match o with
  | NetworkFailure _ | HttpFailure _ _ => true
  | _ => false
  end.

Definition is_console_error (e : Effect) : bool :=
  match e with
  | ConsoleError _ _ => true
  | _ => false
  end.

(** The timer [startStatusPolling] registers on page [p]. *)
Definition new_loop (p : Page) : Timer Callback :=
  {| handle := next_handle (timers p); callback := CheckVideoStatus;
     delay := 2000 |}.

(** Handler [m] run on page [p] clears every running loop before it
    registers its own, which is then the only one. *)
Definition supersedes_polling (m : M unit) (p : Page) : Prop :=
  exists before after : list Effect,
    effects_of m p
      = (before ++ SetInterval (next_handle (timers p)) 2000 :: after)%list /\
    Forall (fun t => In (ClearInterval (Some (handle t))) before)
           (polling_loops p) /\
    existsb is_set_interval before = false /\
    polling_loops (page_after m p) = [new_loop p].

(** ** Sample inputs *)

Definition sample_format : FileSizeFormat := fun n => show_int n ++ " bytes".

Definition sample_video : File :=
  {| file_name := "clip.mp4"; file_type := "video/mp4";
     file_size := 10 * 1024 * 1024 |}.

Definition sample_photo : File :=
  {| file_name := "cat.png"; file_type := "image/png";
     file_size := 10 * 1024 * 1024 |}.

Definition sample_video_upload : VideoUploadResponse :=
  {| video_upload_id := Some "U1"; duration := 12;
     resolution := Sized 640 480; size := 10 * 1024 * 1024 |}.

Definition sample_photo_upload : PhotoUploadResponse :=
  {| photo_upload_id := Some "U1"; dimensions := Sized 640 480 |}.

(** A video is uploaded and an upscaling job [J1] is accepted. *)
Definition video_submitted : list Event :=
  [VideoFileSelected sample_video;
   VideoUploadSettled (HttpJson sample_video_upload);
   UpscaleClick;
   UpscaleSettled (HttpJson {| job_id := Some "J1" |})].

(** The resize form as the user left it. *)
Definition sample_form : ResizeForm :=
  {| targetFilesize := Some 25; resizeWidth := None; resizeHeight := None;
     maintainAspect := true |}.

(** A poll answer for a job in progress, and one for a finished job. *)
Definition still_processing : StatusResponse :=
  {| status := Some "processing"; progress := Some 0;
     status_error := None |}.
Definition now_completed : StatusResponse :=
  {| status := Some "completed"; progress := Some 100;
     status_error := None |}.

(** A photo is uploaded and the process button is pressed. *)
Definition photo_submitting : list Event :=
  [PhotoFileSelected sample_photo;
   PhotoUploadSettled (HttpJson sample_photo_upload);
   ProcessClick].

(** ** The two media kinds and the three submissions *)

Inductive MediaKind := Image | Video.

Definition allowedTypes (k : MediaKind) : list string :=
  match k with
  | Image => imageTypes
  | Video => videoTypes
  end.

Definition maxSize (k : MediaKind) : Z :=
  match k with
  | Image => imageMaxSize
  | Video => videoMaxSize
  end.

Definition validateFile `{FileSizeFormat} (k : MediaKind) (file : File)
  : ValidationResult :=
  match k with
  | Image => validateImageFile file
  | Video => validateVideoFile file
  end.

Definition handleFile `{FileSizeFormat} (k : MediaKind) (file : File)
  : M unit :=
  match k with
  | Image => handlePhotoFile file
  | Video => handleVideoFile file
  end.

Inductive Submission := PhotoProcess | VideoUpscale | VideoResize.

(** What runs when the submit request of each panel has settled. *)
Definition submission_resumed (s : Submission)
  : Outcome SubmitResponse -> M unit :=
  match s with
  | PhotoProcess => processPhoto_resumed
  | VideoUpscale => upscaleVideo_resumed
  | VideoResize => resizeVideo_resumed
  end.

(** The job handle a panel has stored. *)
Definition stored_job (s : Submission) (p : Page) : option string :=
  match s with
  | PhotoProcess => photo_jobId (photoState p)
  | VideoUpscale | VideoResize => jobId (videoState p)
  end.

(** A handler begins polling when it registers a repeating timer and sends
    a status request. *)
Definition begins_polling (effs : list Effect) : bool :=
  existsb is_set_interval effs && existsb is_poll effs.

(** The download operation of each panel. *)
Definition download (k : MediaKind) : M unit :=
  match k with
  | Image => downloadPhoto
  | Video => downloadVideo
  end.

Definition download_job (k : MediaKind) (p : Page) : option string :=
  match k with
  | Image => photo_jobId (photoState p)
  | Video => jobId (videoState p)
  end.

Definition download_url (k : MediaKind) (job : string) : string :=
  match k with
  | Image => API_BASE_URL ++ "/api/photo/download/" ++ job
  | Video => API_BASE_URL ++ "/api/video/download/" ++ job
  end.

Definition no_artifact_message (k : MediaKind) : string :=
  match k with
  | Image => "No processed photo available"
  | Video => "No processed video available"
  end.

(** A poll answer that reports [completed]. *)
Definition reports_completed (e : Event) : bool :=
  match e with
  | StatusSettled (HttpJson r) => status_is (status r) "completed"
  | _ => false
  end.

(** ** Observations on the country page *)

(** What ties [populationInterval] to the registered population timers. *)
Definition population_inv `{CountryEnv} (p : CountryPage) : Prop :=
  0 < next_handle (countryTimers p) /\
  (forall h, populationInterval p = Some h -> 0 < h) /\
  (populationTimers p = [] \/
   exists t, populationTimers p = [t] /\
             populationInterval p = Some (handle t)).

(** The timer [startPopulationCounter] registers on page [p]. *)
Definition new_population_timer `{CountryEnv} (p : CountryPage)
  : Timer CountryCallback :=
  {| handle := next_handle (countryTimers p); callback := PopulationTick;
     delay := 1000 |}.

(** ** Status answers matched to the requests they answer

    A status answer carries no job handle, and [StatusSettled] does not say
    which request it answers.  To speak of "a poll of this job", a
    history may name, for each status answer, the job whose request it
    answers. *)

(** The job a status request asks about. *)
Fixpoint drop_prefix (pre s : string) : option string :=
  match pre with
  | EmptyString => Some s
  | String a pre' =>
      match s with
      | EmptyString => None
      | String b s' => if Ascii.eqb a b then drop_prefix pre' s' else None
      end
  end.

Definition polled_job (e : Effect) : option string :=
  match e with
  | Fetch _ url _ => drop_prefix (API_BASE_URL ++ "/api/video/status/") url
  | _ => None
  end.

Definition polled_jobs (effs : list Effect) : list string :=
  flat_map (fun e => match polled_job e with
                     | Some job => [job]
                     | None => []
                     end) effs.

Inductive Occurrence :=
| Occurs (e : Event)
| Answers (job : string) (o : Outcome StatusResponse).

Definition event_of (x : Occurrence) : Event :=
  match x with
  | Occurs e => e
  | Answers _ o => StatusSettled o
  end.

Fixpoint remove_first (job : string) (l : list string) : list string :=
  match l with
  | [] => []
  | j :: rest => if j === job then rest else j :: remove_first job rest
  end.

(** A history can happen when every status answer is named, and answers a
    status request for that job that was sent and not answered yet;
    [outstanding] lists the jobs of such requests. *)
Fixpoint can_happen `{FileSizeFormat} (xs : list Occurrence) (p : Page)
  (outstanding : list string) : bool :=
  match xs with
  | [] => true
  | x :: rest =>
      match x with
      | Occurs (StatusSettled _) => false
      | Occurs _ => true
      | Answers job _ => includes outstanding job
      end
      && can_happen rest (page_after (step (event_of x)) p)
           (match x with
            | Answers job _ => remove_first job outstanding
            | Occurs _ => outstanding
            end ++ polled_jobs (effects_of (step (event_of x)) p))%list
  end.

(** What may end the polling of [job]: a poll of [job] that observes a
    terminal status, an explicit cancellation, or a new submission. *)
Definition ends_polling_of (job : string) (x : Occurrence) : bool :=
  match x with
  | Answers j (HttpJson r) => (j === job) && is_terminal r
  | Answers _ _ => false
  | Occurs e => stops_polling e
  end.

(** The upscaling job [J1] is being polled and a resize is clicked, its
    button being enabled; once the resize has been accepted as a new job,
    the first status request for [J1] is answered: [J1] has completed. *)
Definition resubmitted : list Occurrence :=
  (map Occurs video_submitted
     ++ [Occurs (ResizeClick sample_form)])%list.

Definition late_answer : list Occurrence :=
  [Answers "J1" (HttpJson now_completed)].

(** ** Further observations on the editor page *)

(** The click handler of each submission. *)
Definition submission_click (s : Submission) (form : ResizeForm) : M unit :=
  match s with
  | PhotoProcess => processPhoto
  | VideoUpscale => upscaleVideo
  | VideoResize => resizeVideo form
  end.

(** The upload handle a submission refers to. *)
Definition upload_handle (s : Submission) (p : Page) : option string :=
  match s with
  | PhotoProcess => photo_uploadId (photoState p)
  | VideoUpscale | VideoResize => uploadId (videoState p)
  end.

Definition upload_first_message (s : Submission) : string :=
  match s with
  | PhotoProcess => "Please upload a photo first"
  | VideoUpscale | VideoResize => "Please upload a video first"
  end.

Definition submit_url (s : Submission) : string :=
  match s with
  | PhotoProcess => "https://localhost:5000/api/photo/process"
  | VideoUpscale => "https://localhost:5000/api/video/upscale"
  | VideoResize => "https://localhost:5000/api/video/resize"
  end.

Definition upload_url (k : MediaKind) : string :=
  match k with
  | Image => "https://localhost:5000/api/photo/upload"
  | Video => "https://localhost:5000/api/video/upload"
  end.

(** The upload handle a request body carries. *)
Definition body_upload_id (b : Payload) : option string :=
  match b with
  | NoBody => None
  | ProcessBody u _ _ => u
  | UpscaleBody u _ _ => u
  | ResizeBody u _ _ => u
  end.

(** Whether the button of a submission is disabled, and whether the
    status sections of its panel are hidden. *)
Definition button_disabled (s : Submission) (p : Page) : bool :=
  match s with
  | PhotoProcess => photo_processBtn_disabled (photoElements p)
  | VideoUpscale => upscaleBtn_disabled (videoElements p)
  | VideoResize => resizeBtn_disabled (videoElements p)
  end.

Definition processing_section_hidden (s : Submission) (p : Page) : bool :=
  match s with
  | PhotoProcess => photo_processing_hidden (photoElements p)
  | VideoUpscale | VideoResize => processing_hidden (videoElements p)
  end.

Definition download_section_hidden (s : Submission) (p : Page) : bool :=
  match s with
  | PhotoProcess => photo_download_hidden (photoElements p)
  | VideoUpscale | VideoResize => download_hidden (videoElements p)
  end.

(** The file a panel holds. *)
Definition stored_file (k : MediaKind) (p : Page) : option File :=
  match k with
  | Image => photo_originalFile (photoState p)
  | Video => originalFile (videoState p)
  end.

(** The video editor as [resetVideoEditor] leaves it. *)
Definition video_editor_clean (p : Page) : Prop :=
  videoState p
  = {| uploadId := None; jobId := None; originalFile := None;
       metadata := None;
       currentOperation := currentOperation (videoState p);
       selectedResolution := selectedResolution (videoState p);
       quality := quality (videoState p);
       resizeMethod := resizeMethod (videoState p);
       statusPollInterval := None |} /\
  polling_loops p = [] /\
  upscaleBtn_disabled (videoElements p) = true /\
  resizeBtn_disabled (videoElements p) = true /\
  processing_hidden (videoElements p) = true /\
  download_hidden (videoElements p) = true.

(** Events of the photo panel. *)
Definition is_photo_event (e : Event) : bool :=
  match e with
  | PhotoFileSelected _ | PhotoUploadSettled _ | FilterChange _
  | BrightnessInput _ | ContrastInput _ | ColorInput _ | SharpnessInput _
  | ResetEffectsClick | ProcessClick | ProcessSettled _
  | PhotoDownloadClick | PhotoRemoveClick => true
  | _ => false
  end.

(** The message a failed request surfaces: the [error] field of the
    server's answer when it has one, else a default naming the status. *)
Definition failure_message {A : Type} (default_prefix : string)
  (o : Outcome A) : string :=
  match o with
  | NetworkFailure m => m
  | HttpFailure st e => or_default e (default_prefix ++ show_int st)
  | _ => ""
  end.

Definition uploading_message (k : MediaKind) : string :=
  match k with
  | Image => "Uploading photo..."
  | Video => "Uploading video..."
  end.

(** The context [handleError] is given by each submission. *)
Definition submit_context (s : Submission) : string :=
  match s with
  | PhotoProcess => "process photo"
  | VideoUpscale => "upscale video"
  | VideoResize => "resize video"
  end.

(** The body of the request a handler sends, when it sends exactly one. *)
Definition sent_body (effs : list Effect) : option Payload :=
  match effs with
  | [Fetch _ _ body] => Some body
  | _ => None
  end.

(** The input events of the photo sliders, with the value they carry and
    the effects they produce from given ones. *)
Inductive Slider := Brightness | Contrast | Color | Sharpness.

Definition slider_event (s : Slider) (v : Q) : Event :=
  match s with
  | Brightness => BrightnessInput v
  | Contrast => ContrastInput v
  | Color => ColorInput v
  | Sharpness => SharpnessInput v
  end.

Definition slider_value (s : Slider) (fx : PhotoEffects) : Q :=
  match s with
  | Brightness => brightness fx
  | Contrast => contrast fx
  | Color => color fx
  | Sharpness => sharpness fx
  end.

Definition slider_eqb (a b : Slider) : bool :=
  match a, b with
  | Brightness, Brightness | Contrast, Contrast | Color, Color
  | Sharpness, Sharpness => true
  | _, _ => false
  end.

(** ** Duration text (UI helper, [formatDuration])

    The embedding is that of the function on whole numbers of seconds
    whose absolute value is at most 2^53 - 1, the safe integers: there
    the double division followed by [Math.floor] is the floor division
    (the quotient is below 2^42, so it is rounded by less than 1/3600,
    its least distance to the next whole number), and [%] is the
    remainder that takes the sign of the dividend.  Outside that range
    the doubles round and the text differs; nothing is stated there. *)
Definition formatDuration (seconds : Z) : string :=
  let hours := seconds / 3600 in
  let minutes := Z.rem seconds 3600 / 60 in
  let secs := Z.rem seconds 60 in
  if hours >? 0 then
    show_int hours ++ "h " ++ show_int minutes ++ "m " ++ show_int secs ++ "s"
  else if minutes >? 0 then
    show_int minutes ++ "m " ++ show_int secs ++ "s"
  else show_int secs ++ "s".

(** ** The rock-paper-scissors page: score display, keys and auto play *)

Inductive GameCallback := AutoPlayTick.

(** [score], the two auto-play variables, the timers, and what the page
    shows: the score line, the result line and the two moves drawn (the
    markup around the moves is left out). *)
Record Game := {
  score : Score;
  isAutoPlaying : bool;
  intervalId : option Z;
  gameTimers : Timers GameCallback;
  scoreElement : string;
  resultElement : string;
  movesElement : option (string * string)
}.

(** The text [updateScoreElement] writes. *)
Definition scoreText (s : Score) : string :=
  "Triunfos: " ++ show_int (wins s) ++ " Perdidas: " ++ show_int (losses s)
  ++ " Empates: " ++ show_int (ties s) ++ " ".

Definition updateScoreElement (g : Game) : Game :=
  {| score := score g; isAutoPlaying := isAutoPlaying g;
     intervalId := intervalId g; gameTimers := gameTimers g;
     scoreElement := scoreText (score g);
     resultElement := resultElement g; movesElement := movesElement g |}.

(** The page once the script has run, for the score found in local
    storage ([None] when there is none). *)
Definition game0 (stored : option Score) : Game :=
  updateScoreElement
    {| score := match stored with Some s => s | None => score0 end;
       isAutoPlaying := false; intervalId := None; gameTimers := timers0;
       scoreElement := ""; resultElement := ""; movesElement := None |}.

(** [playGame] on the page: the score, its display, the result line and
    the moves drawn. *)
Definition playGameOn (playerMove : string) (randomNumber : Q) (g : Game)
  : Game :=
  let '(score', result) := playGame playerMove randomNumber (score g) in
  {| score := score'; isAutoPlaying := isAutoPlaying g;
     intervalId := intervalId g; gameTimers := gameTimers g;
     scoreElement := scoreText score';
     resultElement := result;
     movesElement := Some (playerMove, pickComputerMove randomNumber) |}.

Definition autoPlay (g : Game) : Game :=
  if negb (isAutoPlaying g) then
    {| score := score g; isAutoPlaying := true;
       intervalId := Some (next_handle (gameTimers g));
       gameTimers := add_interval AutoPlayTick 3000 (gameTimers g);
       scoreElement := scoreElement g; resultElement := resultElement g;
       movesElement := movesElement g |}
  else
    {| score := score g; isAutoPlaying := false;
       intervalId := intervalId g;
       gameTimers := remove_interval (intervalId g) (gameTimers g);
       scoreElement := scoreElement g; resultElement := resultElement g;
       movesElement := movesElement g |}.

(** The [keydown] listener. *)
Definition keydown (key : string) (randomNumber : Q) (g : Game) : Game :=
  if key === "r" then playGameOn "Rock" randomNumber g
  else if key === "p" then playGameOn "Paper" randomNumber g
  else if key === "s" then playGameOn "Scissors" randomNumber g
  else g.

(** Every event carries the values [Math.random()] returns during it; a
    tick draws one for the player's move and one for the computer's. *)
Inductive GameEvent :=
| RockClick (randomNumber : Q)
| PaperClick (randomNumber : Q)
| ScissorsClick (randomNumber : Q)
| KeyDown (key : string) (randomNumber : Q)
| AutoPlayCall
| GameIntervalFires (h : Z) (playerRandom computerRandom : Q).

Definition gameStep (e : GameEvent) (g : Game) : Game :=
  match e with
  | RockClick r => playGameOn "Rock" r g
  | PaperClick r => playGameOn "Paper" r g
  | ScissorsClick r => playGameOn "Scissors" r g
  | KeyDown key r => keydown key r g
  | AutoPlayCall => autoPlay g
  | GameIntervalFires h r1 r2 =>
      match find_timer h (gameTimers g) with
      | Some tm =>
          match callback tm with
          | AutoPlayTick => playGameOn (pickComputerMove r1) r2 g
          end
      | None => g
      end
  end.

Fixpoint gameRun (evs : list GameEvent) (g : Game) : Game :=
  match evs with
  | [] => g
  | e :: rest => gameRun rest (gameStep e g)
  end.

Definition total (s : Score) : Z := wins s + losses s + ties s.

(** A random value as [Math.random] returns it. *)
Definition unit_interval (r : Q) : Prop := (0 <= r)%Q /\ (r < 1)%Q.

(** The random values of an event are all in range. *)
Definition randoms_in_range (e : GameEvent) : Prop :=
  match e with
  | RockClick r | PaperClick r | ScissorsClick r | KeyDown _ r =>
      unit_interval r
  | AutoPlayCall => True
  | GameIntervalFires _ r1 r2 => unit_interval r1 /\ unit_interval r2
  end.

(** Whether an event plays a game on page [g]. *)
Definition plays (e : GameEvent) (g : Game) : bool :=
  match e with
  | RockClick _ | PaperClick _ | ScissorsClick _ => true
  | KeyDown key _ => (key === "r") || (key === "p") || (key === "s")
  | AutoPlayCall => false
  | GameIntervalFires h _ _ => is_active h (gameTimers g)
  end.

(** What ties the auto-play flag to the timers. *)
Definition autoplay_inv (g : Game) : Prop :=
  0 < next_handle (gameTimers g) /\
  if isAutoPlaying g then
    exists t, active (gameTimers g) = [t] /\
              intervalId g = Some (handle t) /\
              delay t = 3000
  else active (gameTimers g) = [].

(** ** Further observations on the country page *)

(** Handles are handed out in increasing order, and the handle kept in
    [populationInterval] never names a timer of the other kind. *)
Definition handles_inv `{CountryEnv} (p : CountryPage) : Prop :=
  Forall (fun t => handle t < next_handle (countryTimers p))
         (active (countryTimers p)) /\
  forall h, populationInterval p = Some h ->
            h < next_handle (countryTimers p) /\
            Forall (fun t => handle t = h -> callback t = PopulationTick)
                   (active (countryTimers p)).

(** The registered timers that refresh the cryptocurrency rates. *)
Definition cryptoTimers `{CountryEnv} (p : CountryPage)
  : list (Timer CountryCallback) :=
  filter (fun t => negb (is_population t)) (active (countryTimers p)).

(** [k] firings of timer [h] in a row. *)
Definition firings (h : Z) (k : nat) : list CountryEvent :=
  repeat (CountryIntervalFires h) k.

(** A sample table and arithmetic for the country page: populations as
    integers, growing by one per tick; the entry for Peru has no
    coordinates. *)
Definition sample_env : CountryEnv :=
  {| number := Z; number_zero := 0; grow := fun n => n + 1;
     countriesData :=
       [{| country := "Chile"; coordinates := Some "33 27 S, 70 40 W";
           population := 19000000 |};
        {| country := "Peru"; coordinates := None;
           population := 33000000 |};
        {| country := "Chile"; coordinates := None; population := 1 |}] |}.

(** A 2xx JSON answer to an upload, of either kind, with what the
    handlers read from it: the upload handle and whether it carries the
    image dimensions or video resolution. *)
Inductive UploadAnswer :=
| PhotoAnswer (response : PhotoUploadResponse)
| VideoAnswer (response : VideoUploadResponse).

Definition answer_kind (a : UploadAnswer) : MediaKind :=
  match a with
  | PhotoAnswer _ => Image
  | VideoAnswer _ => Video
  end.

Definition answer_upload_id (a : UploadAnswer) : option string :=
  match a with
  | PhotoAnswer response => photo_upload_id response
  | VideoAnswer response => video_upload_id response
  end.

Definition answer_size (a : UploadAnswer) : Extent :=
  match a with
  | PhotoAnswer response => dimensions response
  | VideoAnswer response => resolution response
  end.

(** What runs when the upload has been answered with [a]. *)
Definition upload_answered (a : UploadAnswer) : M unit :=
  match a with
  | PhotoAnswer response => handlePhotoFile_resumed (HttpJson response)
  | VideoAnswer response => handleVideoFile_resumed (HttpJson response)
  end.

Definition upload_context (k : MediaKind) : string :=
  match k with
  | Image => "upload photo"
  | Video => "upload video"
  end.

Definition upload_success_message (k : MediaKind) : string :=
  match k with
  | Image => "Photo uploaded successfully!"
  | Video => "Video uploaded successfully!"
  end.

(** The submissions of each panel. *)
Definition panel_of (s : Submission) : MediaKind :=
  match s with
  | PhotoProcess => Image
  | VideoUpscale | VideoResize => Video
  end.


(* ====================================================================== *)
(** * Part II: lemmas and theorems                                         *)
(* ====================================================================== *)

(** ** File validation *)

Lemma includes_In (l : list string) (x : string) :
  includes l x = true <-> In x l.
Proof.
  unfold includes. rewrite existsb_exists. split.
  - intros [y [Hy Heq]]. apply String.eqb_eq in Heq. now subst.
  - intros Hx. exists x. split; [assumption | apply String.eqb_refl].
Qed.

Lemma validateImageFile_valid `{FileSizeFormat} (file : File) :
  valid (validateImageFile file) = true <->
  In (file_type file) imageTypes /\ file_size file <= imageMaxSize.
Proof.
  unfold validateImageFile.
  rewrite <- includes_In.
  destruct (includes imageTypes (file_type file)); cbn [negb].
  - destruct (Z.gtb_spec (file_size file) imageMaxSize); cbn [valid].
    + split; [discriminate | intros [_ Hle]; lia].
    + split; [intros _; split; [reflexivity | lia] | reflexivity].
  - cbn [valid]. split; [discriminate | intros [Hty _]; discriminate].
Qed.

Lemma validateVideoFile_valid `{FileSizeFormat} (file : File) :
  valid (validateVideoFile file) = true <->
  In (file_type file) videoTypes /\ file_size file <= videoMaxSize.
Proof.
  unfold validateVideoFile.
  rewrite <- includes_In.
  destruct (includes videoTypes (file_type file)); cbn [negb].
  - destruct (Z.gtb_spec (file_size file) videoMaxSize); cbn [valid].
    + split; [discriminate | intros [_ Hle]; lia].
    + split; [intros _; split; [reflexivity | lia] | reflexivity].
  - cbn [valid]. split; [discriminate | intros [Hty _]; discriminate].
Qed.

(** C8: [validateImageFile] accepts a file exactly when its type is one of
    the six image types and its size is at most 50*1024*1024 bytes;
    [validateVideoFile] accepts exactly when the type is one of the seven
    video types and the size is at most 500*1024*1024 bytes.  The limits
    are inclusive: a file of an allowed type whose size equals the limit is
    accepted. *)
Theorem file_acceptance_policy_exact :
  forall (fmt : FileSizeFormat) (file : File),
    (valid (validateImageFile file) = true <->
       In (file_type file)
          ["image/jpeg"; "image/png"; "image/bmp"; "image/gif"; "image/tiff";
           "image/webp"]
       /\ file_size file <= 50 * 1024 * 1024) /\
    (valid (validateVideoFile file) = true <->
       In (file_type file)
          ["video/mp4"; "video/avi"; "video/quicktime"; "video/x-matroska";
           "video/webm"; "video/x-flv"; "video/x-ms-wmv"]
       /\ file_size file <= 500 * 1024 * 1024) /\
    Forall (fun ty => forall name,
              valid (validateImageFile
                       {| file_name := name; file_type := ty;
                          file_size := 50 * 1024 * 1024 |}) = true)
           imageTypes /\
    Forall (fun ty => forall name,
              valid (validateVideoFile
                       {| file_name := name; file_type := ty;
                          file_size := 500 * 1024 * 1024 |}) = true)
           videoTypes.
Proof.
  intros fmt file. split; [| split; [| split]].
  - apply validateImageFile_valid.
  - apply validateVideoFile_valid.
  - apply Forall_forall. intros ty Hty name.
    apply validateImageFile_valid. cbn [file_type file_size].
    split; [assumption | unfold imageMaxSize; lia].
  - apply Forall_forall. intros ty Hty name.
    apply validateVideoFile_valid. cbn [file_type file_size].
    split; [assumption | unfold videoMaxSize; lia].
Qed.

(** ** Rock-paper-scissors *)

Lemma pickComputerMove_in_moves (randomNumber : Q) :
  (0 <= randomNumber)%Q -> (randomNumber < 1)%Q ->
  In (pickComputerMove randomNumber) moves.
Proof.
  intros H0 H1. unfold pickComputerMove, Qge_bool, Qlt_bool.
  apply Qle_bool_iff in H0. rewrite H0.
  assert (Hone : Qle_bool 1 randomNumber = false).
  { destruct (Qle_bool 1 randomNumber) eqn:E; [| reflexivity].
    apply Qle_bool_iff in E. exfalso. apply (Qlt_not_le _ _ H1 E). }
  rewrite Hone.
  destruct (Qle_bool one_third randomNumber);
    destruct (Qle_bool two_thirds randomNumber); simpl; auto.
Qed.

Lemma pickComputerMove_onto :
  pickComputerMove 0 = "Rock" /\
  pickComputerMove (1 # 2) = "Paper" /\
  pickComputerMove (3 # 4) = "Scissors".
Proof. repeat split. Qed.

Ltac each_move H :=
  simpl in H;
  repeat (destruct H as [H | H]; [subst | ]); try contradiction.

(** C9: for player and computer moves among Rock, Paper and Scissors, one
    call of [playGame] adds one to exactly one of [wins], [losses] and
    [ties] and leaves the other two alone, so their sum grows by one; the
    counter is [wins] exactly for (Rock, Scissors), (Paper, Rock) and
    (Scissors, Paper), and [ties] exactly when the two moves are equal. *)
Theorem playGame_increments_one_counter :
  forall (playerMove computerMove : string) (randomNumber : Q)
         (score : Score),
    In playerMove moves ->
    In computerMove moves ->
    pickComputerMove randomNumber = computerMove ->
    let score' := fst (playGame playerMove randomNumber score) in
    (score' = {| wins := wins score + 1; losses := losses score;
                 ties := ties score |} \/
     score' = {| wins := wins score; losses := losses score + 1;
                 ties := ties score |} \/
     score' = {| wins := wins score; losses := losses score;
                 ties := ties score + 1 |}) /\
    wins score' + losses score' + ties score'
      = wins score + losses score + ties score + 1 /\
    (wins score' = wins score + 1 <-> beats playerMove computerMove) /\
    (ties score' = ties score + 1 <-> playerMove = computerMove).
Proof.
  intros playerMove computerMove randomNumber score Hp Hc Hpick score'.
  subst score'. unfold playGame. rewrite Hpick. clear Hpick.
  unfold beats.
  each_move Hp; each_move Hc; cbn;
    (split; [auto | split; [lia | split; split; intros Hx;
       try lia; try reflexivity; try discriminate;
       try (now auto);
       try (exfalso; intuition discriminate)]]).
Qed.

Lemma playGame_increments_one_counter_witness :
  In "Rock" moves /\ In "Paper" moves /\
  pickComputerMove (1 # 2) = "Paper" /\
  fst (playGame "Rock" (1 # 2) score0)
    = {| wins := 0; losses := 1; ties := 0 |}.
Proof.
  assert (Hp : In "Rock" moves) by (simpl; auto).
  assert (Hc : In "Paper" moves) by (simpl; auto).
  assert (Hr : pickComputerMove (1 # 2) = "Paper") by reflexivity.
  split; [exact Hp | split; [exact Hc | split; [exact Hr |]]].
  destruct (playGame_increments_one_counter
              "Rock" "Paper" (1 # 2) score0 Hp Hc Hr)
    as [_ [_ [_ _]]].
  reflexivity.
Defined.

(** ** The polling loop of the video editor *)

Ltac split_ifs :=
  repeat match goal with
         | |- context [if ?c then _ else _] => destruct c eqn:?
         | |- context [match ?c with Some _ => _ | None => _ end] =>
             destruct c eqn:?
         | |- context [match ?c with inl _ => _ | inr _ => _ end] =>
             destruct c eqn:?
         | |- context [match ?c with Sized _ _ => _ | Unsized _ => _ end] =>
             destruct c eqn:?
         | |- context [match ?c with CheckVideoStatus => _ end] =>
             destruct c eqn:?
         end.

Ltac eval_handlers :=
  cbv beta iota zeta delta
    [step fire on_effects
     handlePhotoFile handlePhotoFile_resumed processPhoto
     processPhoto_resumed downloadPhoto resetPhotoEditor resetEffects
     handleVideoFile handleVideoFile_resumed upscaleVideo
     upscaleVideo_resumed resizeVideo resizeVideo_resumed
     startStatusPolling checkVideoStatus checkVideoStatus_resumed
     downloadVideo resetVideoEditor beforeunload
     handleError showToast apiRequest apiRequest_settled uploadFile
     uploadFile_settled setInterval clearInterval setTimeout
     bind ret emit read update page_after effects_of
     on_photoState on_photoElements on_videoState on_videoElements
     on_timers remove_interval add_interval take_handle find_timer
     set_uploadId set_jobId set_originalFile set_metadata
     set_currentOperation set_selectedResolution set_quality
     set_resizeMethod set_statusPollInterval
     photoState photoElements videoState videoElements timers
     uploadId jobId originalFile metadata currentOperation
     selectedResolution quality resizeMethod statusPollInterval
     next_handle active fst snd find filter app truthy_handle].

(** A stored handle that tests falsy contradicts its being positive. *)
Ltac falsy_handle :=
  match goal with
  | H : negb (?x =? 0) = false |- _ =>
      exfalso; destruct (Z.eqb_spec x 0); [lia | discriminate]
  | H : negb (?x =? ?x) = true |- _ =>
      rewrite Z.eqb_refl in H; discriminate
  end.

Ltac finish_inv :=
  first
    [ falsy_handle
    | split;
      [ lia
      | split;
        [ let x := fresh "x" in let Hx := fresh "Hx" in
          intros x Hx; inversion Hx; subst; lia
        | first [ left; reflexivity
                | right; eexists; split; [reflexivity | split];
                  first [reflexivity | assumption] ] ] ] ].

Lemma poll_inv_step `{FileSizeFormat} (e : Event) (p : Page) :
  poll_inv p -> poll_inv (page_after (step e) p).
Proof.
  intros (Hpos & Hstored & Hact).
  destruct p as [ps pe vs ve tm]. destruct tm as [nh act].
  destruct vs as [u j f md op res q rm spi].
  unfold poll_inv in *. cbn in Hpos, Hstored, Hact.
  assert (Hspi : match spi with Some h => 0 < h < nh | None => True end)
    by (destruct spi; auto).
  clear Hstored.
  destruct Hact as [-> | (t & -> & -> & Hdelay)]; [destruct spi as [h |] |];
    destruct e; try destruct o; eval_handlers;
    split_ifs; eval_handlers; rewrite ?Z.eqb_refl; eval_handlers; cbn [negb];
    finish_inv.
Qed.

Lemma page_after_bind {A B : Type} (m : M A) (k : A -> M B) (p : Page) :
  page_after (bind m k) p = page_after (k (fst (fst (m p)))) (page_after m p).
Proof.
  unfold page_after, bind. destruct (m p) as [[a p1] t1]. cbn.
  destruct (k a p1) as [[b p2] t2]. reflexivity.
Qed.

Lemma effects_of_bind {A B : Type} (m : M A) (k : A -> M B) (p : Page) :
  effects_of (bind m k) p
  = (effects_of m p
       ++ effects_of (k (fst (fst (m p)))) (page_after m p))%list.
Proof.
  unfold effects_of, page_after, bind. destruct (m p) as [[a p1] t1]. cbn.
  destruct (k a p1) as [[b p2] t2]. reflexivity.
Qed.

Lemma page_after_run_cons `{FileSizeFormat} (e : Event) (evs : list Event)
  (p : Page) :
  page_after (run (e :: evs)) p = page_after (run evs) (page_after (step e) p).
Proof. cbn [run]. apply page_after_bind. Qed.

Lemma effects_of_run_cons `{FileSizeFormat} (e : Event) (evs : list Event)
  (p : Page) :
  effects_of (run (e :: evs)) p
  = (effects_of (step e) p
       ++ effects_of (run evs) (page_after (step e) p))%list.
Proof. cbn [run]. apply effects_of_bind. Qed.

Lemma poll_inv_run `{FileSizeFormat} (evs : list Event) (p : Page) :
  poll_inv p -> poll_inv (page_after (run evs) p).
Proof.
  revert p. induction evs as [| e evs IH]; intros p Hp.
  - exact Hp.
  - rewrite page_after_run_cons. apply IH. now apply poll_inv_step.
Qed.

Lemma poll_inv_page0 : poll_inv page0.
Proof.
  unfold poll_inv. cbn. split; [lia | split; [discriminate | now left]].
Qed.

Lemma poll_inv_reachable `{FileSizeFormat} (evs : list Event) :
  poll_inv (page_after (run evs) page0).
Proof. apply poll_inv_run, poll_inv_page0. Qed.

(** With no timer registered, nothing but a new submission polls. *)
Lemma idle_step `{FileSizeFormat} (e : Event) (p : Page) :
  polling_loops p = [] ->
  starts_polling e = false ->
  polling_loops (page_after (step e) p) = [] /\
  existsb is_poll (effects_of (step e) p) = false.
Proof.
  intros Hidle Hstart.
  destruct p as [ps pe vs ve tm]. destruct tm as [nh act].
  destruct vs as [u j f md op res q rm spi].
  unfold polling_loops in *. cbn in Hidle. subst act.
  destruct e; try destruct o; try discriminate Hstart; eval_handlers;
    split_ifs; eval_handlers; split; reflexivity.
Qed.

Lemma idle_run `{FileSizeFormat} (evs : list Event) (p : Page) :
  polling_loops p = [] ->
  existsb starts_polling evs = false ->
  polling_loops (page_after (run evs) p) = [] /\
  existsb is_poll (effects_of (run evs) p) = false.
Proof.
  revert p. induction evs as [| e evs IH]; intros p Hidle Hno.
  - split; [exact Hidle | reflexivity].
  - cbn [existsb] in Hno. apply orb_false_iff in Hno as [He Hrest].
    destruct (idle_step e p Hidle He) as [Hidle' Hquiet].
    destruct (IH _ Hidle' Hrest) as [Hidle'' Hquiet'].
    rewrite page_after_run_cons, effects_of_run_cons, existsb_app.
    split; [exact Hidle'' | now rewrite Hquiet, Hquiet'].
Qed.

Lemma submission_supersedes (resumed : Outcome SubmitResponse -> M unit)
  (response : SubmitResponse) (p : Page) :
  resumed = upscaleVideo_resumed \/ resumed = resizeVideo_resumed ->
  poll_inv p ->
  supersedes_polling (resumed (HttpJson response)) p.
Proof.
  intros Hres (Hpos & Hstored & Hact).
  destruct p as [ps pe vs ve tm]. destruct tm as [nh act].
  destruct vs as [u j f md op res q rm spi].
  unfold poll_inv, supersedes_polling, polling_loops, new_loop in *.
  cbn in Hpos, Hstored, Hact.
  assert (Hspi : match spi with Some h => 0 < h < nh | None => True end)
    by (destruct spi; auto).
  clear Hstored.
  destruct Hact as [-> | (t & -> & -> & Hdelay)]; [destruct spi as [h |] |];
    destruct Hres as [-> | ->]; eval_handlers;
    split_ifs; eval_handlers; try falsy_handle;
    try (rewrite Z.eqb_refl in *; discriminate).
  all: try (exists []; eexists; split; [reflexivity |];
            split; [constructor |]; split; reflexivity).
  all: try (exists [ClearInterval (Some h)]; eexists; split; [reflexivity |];
            split; [constructor |]; split; reflexivity).
  all: exists [ClearInterval (Some (handle t))]; eexists;
    (split; [reflexivity |]);
    (split; [repeat constructor |]); split; reflexivity.
Qed.

(** C1: along every sequence of events of the page at most one polling
    loop (registered repeating timer) runs; and when a submission
    ([upscaleVideo] or [resizeVideo]) succeeds, the handler clears the
    timer of every running loop before it registers the new 2-second
    timer, after which the new loop is the only one. *)
Theorem at_most_one_polling_loop :
  forall (fmt : FileSizeFormat) (evs : list Event)
         (response : SubmitResponse),
    let p := page_after (run evs) page0 in
    (List.length (polling_loops p) <= 1)%nat /\
    supersedes_polling (upscaleVideo_resumed (HttpJson response)) p /\
    supersedes_polling (resizeVideo_resumed (HttpJson response)) p.
Proof.
  intros fmt evs response p.
  pose proof (poll_inv_reachable evs) as Hinv. fold p in Hinv.
  split; [| split].
  - destruct Hinv as (_ & _ & [Hnone | (t & Hone & _)]);
      unfold polling_loops; [rewrite Hnone | rewrite Hone]; cbn; lia.
  - apply submission_supersedes; [now left | exact Hinv].
  - apply submission_supersedes; [now right | exact Hinv].
Qed.

Lemma truthy_Some (s : string) : s <> "" -> truthy (Some s) = true.
Proof.
  intros Hs. unfold truthy. destruct (String.eqb_spec s ""); [contradiction |].
  reflexivity.
Qed.

Lemma find_handle (l : list (Timer Callback)) (t : Timer Callback) :
  In t l -> exists t', find (fun x => handle x =? handle t) l = Some t'.
Proof.
  induction l as [| a l IH]; intros Hin; [contradiction |].
  cbn [find]. destruct (handle a =? handle t) eqn:E; [now exists a |].
  destruct Hin as [-> | Hin]; [rewrite Z.eqb_refl in E; discriminate |].
  now apply IH.
Qed.

(** A registered timer that fires sends one status request. *)
Lemma fire_polls (p : Page) (t : Timer Callback) (job : string) :
  In t (polling_loops p) ->
  jobId (videoState p) = Some job -> job <> "" ->
  effects_of (fire (handle t)) p = [Fetch "GET" (status_url job) NoBody] /\
  page_after (fire (handle t)) p = p.
Proof.
  intros Hin Hjob Hne. unfold polling_loops in Hin.
  destruct (find_handle _ _ Hin) as [t' Hfind].
  unfold fire, effects_of, page_after, bind, read, find_timer. cbn.
  rewrite Hfind. destruct (callback t').
  unfold checkVideoStatus, bind, read. cbn. rewrite Hjob.
  rewrite (truthy_Some _ Hne). cbn. split; reflexivity.
Qed.

Ltac contradict_flag Hflag :=
  cbv beta iota delta [stops_polling starts_polling is_terminal
                       uploadFile_settled] in Hflag;
  match goal with
  | H : resolution _ = Unsized _ |- _ => rewrite H in Hflag
  | H : status_is (status (blankStatus _)) _ = true |- _ => discriminate H
  | H : status_is _ "completed" = true |- _ => rewrite H in Hflag
  | H : status_is _ "failed" = true |- _ =>
      rewrite H, orb_true_r in Hflag
  | H1 : status_is _ "completed" = false,
    H2 : status_is _ "failed" = false |- _ => rewrite H1, H2 in Hflag
  end;
  cbn in Hflag; discriminate Hflag.

(** Handlers that do not reach [clearInterval] or [setInterval] leave the
    registered timers alone. *)
Lemma quiet_step `{FileSizeFormat} (e : Event) (p : Page) :
  stops_polling e = false ->
  polling_loops (page_after (step e) p) = polling_loops p.
Proof.
  intros Hstop.
  destruct p as [ps pe vs ve tm]. destruct tm as [nh act].
  destruct vs as [u j f md op res q rm spi].
  unfold polling_loops.
  destruct e; try destruct o; try discriminate Hstop; eval_handlers;
    split_ifs; eval_handlers; try reflexivity; contradict_flag Hstop.
Qed.

Lemma status_is_exclusive (v : option string) (a b : string) :
  a <> b -> status_is v a = true -> status_is v b = false.
Proof.
  intros Hab Ha. destruct v as [s |]; [| reflexivity]. cbn in *.
  apply String.eqb_eq in Ha. subst s. now apply String.eqb_neq.
Qed.

Lemma terminal_not_processing (response : StatusResponse) :
  is_terminal response = true ->
  status_is (status response) "processing" = false.
Proof.
  unfold is_terminal. intros Hterm.
  apply orb_true_iff in Hterm as [Hc | Hf].
  - apply (status_is_exclusive _ "completed"); [discriminate | exact Hc].
  - apply (status_is_exclusive _ "failed"); [discriminate | exact Hf].
Qed.

(** A terminal answer leaves no timer registered. *)
Lemma terminal_clears (response : StatusResponse) (p : Page) :
  poll_inv p ->
  is_terminal response = true ->
  let p' := page_after (checkVideoStatus_resumed (HttpJson response)) p in
  polling_loops p' = [] /\ statusPollInterval (videoState p') = None.
Proof.
  intros (Hpos & Hstored & Hact) Hterm.
  pose proof (terminal_not_processing _ Hterm) as Hproc.
  destruct p as [ps pe vs ve tm]. destruct tm as [nh act].
  destruct vs as [u j f md op res q rm spi].
  unfold poll_inv, polling_loops in *. cbn in Hpos, Hstored, Hact.
  destruct Hact as [-> | (t & -> & -> & Hdelay)]; [destruct spi as [h |] |];
    eval_handlers; rewrite Hproc; split_ifs; eval_handlers;
    try (rewrite Z.eqb_refl in *; discriminate);
    try (split; reflexivity); contradict_flag Hterm.
Qed.

Lemma submission_polls_at_once
  (resumed : Outcome SubmitResponse -> M unit)
  (response : SubmitResponse) (job : string) (p : Page) :
  resumed = upscaleVideo_resumed \/ resumed = resizeVideo_resumed ->
  job_id response = Some job -> job <> "" ->
  exists before after : list Effect,
    effects_of (resumed (HttpJson response)) p
    = (before
         ++ [SetInterval (next_handle (timers p)) 2000;
             Fetch "GET" (status_url job) NoBody]
         ++ after)%list /\
    existsb is_poll before = false /\
    jobId (videoState (page_after (resumed (HttpJson response)) p))
    = Some job.
Proof.
  intros Hres Hjob Hne.
  destruct p as [ps pe vs ve tm]. destruct tm as [nh act].
  destruct vs as [u j f md op res q rm spi].
  destruct response as [jid]. cbn in Hjob. subst jid.
  pose proof (truthy_Some _ Hne) as Htruthy.
  destruct spi as [z |]; destruct Hres as [-> | ->]; eval_handlers;
    split_ifs; eval_handlers; cbn [render];
    try match goal with
        | Hf : negb (truthy _) = true |- _ =>
            cbn [job_id] in Hf; rewrite Htruthy in Hf; discriminate Hf
        end.
  all: first
    [ exists []; eexists; split; [reflexivity | split; reflexivity]
    | exists [ClearInterval (Some z)]; eexists;
      split; [reflexivity | split; reflexivity] ].
Qed.

Lemma running_loop_delay (p : Page) (t : Timer Callback) :
  poll_inv p -> In t (polling_loops p) -> delay t = 2000.
Proof.
  intros (_ & _ & [Hnone | (t' & Hone & _ & Hdelay)]) Hin;
    unfold polling_loops in Hin.
  - rewrite Hnone in Hin. contradiction.
  - rewrite Hone in Hin. destruct Hin as [<- | []]. exact Hdelay.
Qed.

(** Handlers that do not reach [clearInterval] or [setInterval] keep the
    stored job too. *)
Lemma steady_step `{FileSizeFormat} (e : Event) (p : Page) :
  stops_polling e = false ->
  polling_loops (page_after (step e) p) = polling_loops p /\
  jobId (videoState (page_after (step e) p)) = jobId (videoState p).
Proof.
  intros Hstop. split; [now apply quiet_step |].
  destruct p as [ps pe vs ve tm]. destruct tm as [nh act].
  destruct vs as [u j f md op res q rm spi].
  destruct e; try destruct o; try discriminate Hstop; eval_handlers;
    split_ifs; eval_handlers; try reflexivity; contradict_flag Hstop.
Qed.

Lemma steady_run `{FileSizeFormat} (evs : list Event) (p : Page) :
  existsb stops_polling evs = false ->
  polling_loops (page_after (run evs) p) = polling_loops p /\
  jobId (videoState (page_after (run evs) p)) = jobId (videoState p).
Proof.
  revert p. induction evs as [| e evs IH]; intros p Hnone.
  - split; reflexivity.
  - cbn [existsb] in Hnone. apply orb_false_iff in Hnone as [He Hrest].
    rewrite page_after_run_cons.
    destruct (steady_step e p He) as [Hloops Hjob].
    destruct (IH (page_after (step e) p) Hrest) as [Hloops' Hjob'].
    split; congruence.
Qed.

(** C2, as stated, fails.  Read with "a poll" as a poll of the job in
    question, it says: once a submission has stored [job], the polling
    loop runs for as long as no poll of [job] has observed a terminal
    status, nothing has cancelled polling and no new submission has been
    made.  In the history below the upscaling job [J1] is polled, a
    resize is accepted as job [J2] while the first status request for
    [J1] is still unanswered, and the answer to that request then reports
    [completed]: the handler clears the timer of [J2], of which no poll
    has reported anything. *)
Lemma late_answer_ends_polling :
  ~ (forall (fmt : FileSizeFormat) (before after : list Occurrence)
            (submitted : Event) (response : SubmitResponse) (job : string),
        submitted = UpscaleSettled (HttpJson response)
        \/ submitted = ResizeSettled (HttpJson response) ->
        job_id response = Some job ->
        job <> "" ->
        can_happen (before ++ Occurs submitted :: after) page0 [] = true ->
        existsb (ends_polling_of job) after = false ->
        polling_loops
          (page_after
             (run (map event_of (before ++ Occurs submitted :: after)))
             page0)
        <> []).
Proof.
  intros Hall.
  assert (Hne : "J2" <> "") by discriminate.
  apply (Hall sample_format resubmitted late_answer
              (ResizeSettled (HttpJson {| job_id := Some "J2" |}))
              {| job_id := Some "J2" |} "J2"
              (or_intror eq_refl) eq_refl Hne eq_refl eq_refl).
  reflexivity.
Qed.

(** C2, amended: on every reachable page, (a) a successful submission
    registers the repeating timer with a period of 2000 ms and sends the
    first status request in the same task, right after registering it;
    (b) every firing of the running timer sends a status request for the
    stored job and leaves the page as it is; (c) no event other than a
    status answer with a terminal status, an explicit cancellation
    (remove button, page unload, reset after an upload that failed or
    lacks the resolution) or a new submission removes the timer or
    changes the stored job; (d) a status answer with status [completed]
    or [failed], whichever request it answers, clears the timer and the
    stored handle, and from then on no status request is sent by any
    sequence of events that holds no new submission; (e) so after a
    successful submission of [job], across every sequence of events
    without such an answer, cancellation or new submission, the new timer
    stays the only registered one, [job] stays stored, and a firing of
    the timer sends a status request for [job]. *)
Theorem polling_runs_until_terminal :
  forall (fmt : FileSizeFormat) (evs : list Event),
    let p := page_after (run evs) page0 in
    (forall resumed response job,
        resumed = upscaleVideo_resumed \/ resumed = resizeVideo_resumed ->
        job_id response = Some job -> job <> "" ->
        polling_loops (page_after (resumed (HttpJson response)) p)
          = [new_loop p] /\
        exists before after : list Effect,
          effects_of (resumed (HttpJson response)) p
          = (before
               ++ [SetInterval (next_handle (timers p)) 2000;
                   Fetch "GET" (status_url job) NoBody]
               ++ after)%list /\
          existsb is_poll before = false) /\
    (forall t job,
        In t (polling_loops p) ->
        jobId (videoState p) = Some job -> job <> "" ->
        delay t = 2000 /\
        effects_of (step (IntervalFires (handle t))) p
          = [Fetch "GET" (status_url job) NoBody] /\
        page_after (step (IntervalFires (handle t))) p = p) /\
    (forall e,
        stops_polling e = false ->
        polling_loops (page_after (step e) p) = polling_loops p /\
        jobId (videoState (page_after (step e) p)) = jobId (videoState p)) /\
    (forall response later,
        is_terminal response = true ->
        existsb starts_polling later = false ->
        let p' := page_after (step (StatusSettled (HttpJson response))) p in
        polling_loops p' = [] /\
        statusPollInterval (videoState p') = None /\
        existsb is_poll (effects_of (run later) p') = false) /\
    (forall resumed response job later,
        resumed = upscaleVideo_resumed \/ resumed = resizeVideo_resumed ->
        job_id response = Some job -> job <> "" ->
        existsb stops_polling later = false ->
        let p' := page_after (run later)
                    (page_after (resumed (HttpJson response)) p) in
        polling_loops p' = [new_loop p] /\
        jobId (videoState p') = Some job /\
        effects_of (step (IntervalFires (next_handle (timers p)))) p'
          = [Fetch "GET" (status_url job) NoBody]).
Proof.
  intros fmt evs p.
  pose proof (poll_inv_reachable evs) as Hinv. fold p in Hinv.
  split; [| split; [| split; [| split]]].
  - intros resumed response job Hres Hjob Hne. split.
    + destruct (submission_supersedes resumed response p Hres Hinv)
        as (b & a & _ & _ & _ & Hloops).
      exact Hloops.
    + destruct (submission_polls_at_once resumed response job p Hres Hjob Hne)
        as (b & a & Heff & Hb & _).
      exists b, a. split; assumption.
  - intros t job Hin Hjob Hne. split.
    + exact (running_loop_delay p t Hinv Hin).
    + exact (fire_polls p t job Hin Hjob Hne).
  - intros e Hstop. apply steady_step. exact Hstop.
  - intros response later Hterm Hlater p'.
    destruct (terminal_clears response p Hinv Hterm) as [Hidle Hnull].
    split; [exact Hidle | split; [exact Hnull |]].
    exact (proj2 (idle_run later p' Hidle Hlater)).
  - intros resumed response job later Hres Hjob Hne Hlater p'.
    destruct (submission_supersedes resumed response p Hres Hinv)
      as (b & a & _ & _ & _ & Hloops).
    destruct (submission_polls_at_once resumed response job p Hres Hjob Hne)
      as (b' & a' & _ & _ & Hstored).
    destruct (steady_run later (page_after (resumed (HttpJson response)) p)
                Hlater) as [Hloops' Hjob'].
    fold p' in Hloops', Hjob'.
    rewrite Hloops in Hloops'. rewrite Hstored in Hjob'.
    split; [exact Hloops' | split; [exact Hjob' |]].
    assert (Hin : In (new_loop p) (polling_loops p'))
      by (rewrite Hloops'; left; reflexivity).
    exact (proj1 (fire_polls p' (new_loop p) job Hin Hjob' Hne)).
Qed.

Lemma polling_runs_until_terminal_witness :
  let p := page_after (run (H := sample_format) video_submitted) page0 in
  let t := {| handle := 3; callback := CheckVideoStatus; delay := 2000 |} in
  let done := {| status := Some "completed"; progress := Some 100;
                 status_error := None |} in
  let later := [IntervalFires 3; StatusSettled (HttpJson still_processing);
                ToastTimeout; StatusSettled (HttpFailure 502 None)] in
  (In t (polling_loops p) /\
   jobId (videoState p) = Some "J1" /\
   effects_of (step (H := sample_format) (IntervalFires 3)) p
     = [Fetch "GET" "https://localhost:5000/api/video/status/J1" NoBody]) /\
  (stops_polling ToastTimeout = false /\
   polling_loops (page_after (step (H := sample_format) ToastTimeout) p)
     = [t]) /\
  (is_terminal done = true /\
   existsb is_poll
     (effects_of (run (H := sample_format) [IntervalFires 3; VideoDownloadClick])
        (page_after (step (H := sample_format) (StatusSettled (HttpJson done)))
           p))
     = false) /\
  (job_id {| job_id := Some "J2" |} = Some "J2" /\ "J2" <> "" /\
   existsb stops_polling later = false /\
   effects_of (step (H := sample_format) (IntervalFires 5))
     (page_after (run (H := sample_format) later)
        (page_after (resizeVideo_resumed (HttpJson {| job_id := Some "J2" |}))
           p))
   = [Fetch "GET" "https://localhost:5000/api/video/status/J2" NoBody]).
Proof.
  intros p t done later.
  destruct (polling_runs_until_terminal sample_format video_submitted)
    as (_ & Hfire & Hquiet & Hterm & Hsteady).
  assert (Hin : In t (polling_loops p)) by (left; reflexivity).
  assert (Hjob : jobId (videoState p) = Some "J1") by reflexivity.
  assert (Hne : "J1" <> "") by discriminate.
  assert (Hne2 : "J2" <> "") by discriminate.
  assert (Hlater : existsb stops_polling later = false) by reflexivity.
  split; [| split; [| split]].
  - split; [exact Hin | split; [exact Hjob |]].
    exact (proj1 (proj2 (Hfire t "J1" Hin Hjob Hne))).
  - split; [reflexivity |].
    exact (proj1 (Hquiet ToastTimeout eq_refl)).
  - split; [reflexivity |].
    exact (proj2 (proj2
             (Hterm done [IntervalFires 3; VideoDownloadClick]
                    eq_refl eq_refl))).
  - split; [reflexivity | split; [exact Hne2 | split; [exact Hlater |]]].
    exact (proj2 (proj2
             (Hsteady resizeVideo_resumed {| job_id := Some "J2" |} "J2"
                      later (or_intror eq_refl) eq_refl Hne2 Hlater))).
Defined.

(** ** Submission in the two editors *)

(** C3, as stated, fails: the photo editor stores the job handle of a
    successful submission but registers no timer and sends no status
    request. *)
Lemma photo_submission_does_not_poll :
  ~ (forall (fmt : FileSizeFormat) (s : Submission)
            (response : SubmitResponse) (p : Page),
        truthy (job_id response) = true ->
        begins_polling
          (effects_of (submission_resumed s (HttpJson response)) p) = true).
Proof.
  intros Hall.
  specialize (Hall sample_format PhotoProcess {| job_id := Some "J1" |}
                (page_after (run (H := sample_format) photo_submitting) page0)
                eq_refl).
  vm_compute in Hall. discriminate Hall.
Qed.

(** C3, amended: a successful submission stores the returned job handle in
    every panel.  The video editor ([upscaleVideo], [resizeVideo]) then
    begins polling: it registers the 2000 ms timer and sends the first
    status request for that job.  The photo editor ([processPhoto]) does
    not poll: it registers no timer, sends no request, shows the download
    section and announces success. *)
Theorem submission_stores_handle_video_polls :
  forall (s : Submission) (response : SubmitResponse) (job : string)
         (p : Page),
    job_id response = Some job ->
    job <> "" ->
    let m := submission_resumed s (HttpJson response) in
    stored_job s (page_after m p) = Some job /\
    match s with
    | PhotoProcess =>
        effects_of m p = [Toast "Photo processed successfully!" "success" 5000]
        /\ begins_polling (effects_of m p) = false
        /\ polling_loops (page_after m p) = polling_loops p
        /\ photo_download_hidden (photoElements (page_after m p)) = false
    | VideoUpscale | VideoResize =>
        begins_polling (effects_of m p) = true
        /\ In (SetInterval (next_handle (timers p)) 2000) (effects_of m p)
        /\ In (Fetch "GET" (status_url job) NoBody) (effects_of m p)
        /\ In (new_loop p) (polling_loops (page_after m p))
    end.
Proof.
  intros s response job p Hjob Hne m. subst m.
  destruct response as [jid]. cbn in Hjob. subst jid.
  pose proof (truthy_Some _ Hne) as Htruthy.
  destruct p as [ps pe vs ve tm]. destruct tm as [nh act].
  destruct vs as [u j f md op res q rm spi].
  unfold polling_loops, new_loop, begins_polling.
  destruct spi as [z |]; destruct s; cbn [submission_resumed stored_job];
    eval_handlers; split_ifs; eval_handlers;
    cbn [render photo_jobId photo_download_hidden set_photo_jobId
         set_photo_download_hidden set_photo_processing_hidden
         set_photo_processBtn_disabled photo_uploadId photo_originalFile
         currentEffects photo_processBtn_disabled photo_processing_hidden];
    try match goal with
        | Hf : negb (truthy _) = true |- _ =>
            cbn [job_id] in Hf; rewrite Htruthy in Hf; discriminate Hf
        end.
  all: repeat split; try reflexivity.
  all: try (cbn [In]; auto 6).
  all: apply in_or_app; right; left; reflexivity.
Qed.

Lemma submission_stores_handle_video_polls_witness :
  let p := page_after (run (H := sample_format) photo_submitting) page0 in
  let response := {| job_id := Some "J1" |} in
  job_id response = Some "J1" /\ "J1" <> "" /\
  stored_job VideoUpscale
    (page_after (submission_resumed VideoUpscale (HttpJson response)) p)
    = Some "J1" /\
  stored_job PhotoProcess
    (page_after (submission_resumed PhotoProcess (HttpJson response)) p)
    = Some "J1".
Proof.
  intros p response.
  assert (Hjob : job_id response = Some "J1") by reflexivity.
  assert (Hne : "J1" <> "") by discriminate.
  split; [exact Hjob | split; [exact Hne | split]].
  - exact (proj1 (submission_stores_handle_video_polls
                    VideoUpscale response "J1" p Hjob Hne)).
  - exact (proj1 (submission_stores_handle_video_polls
                    PhotoProcess response "J1" p Hjob Hne)).
Defined.

(** ** Local validation comes first *)

Lemma validateFile_invalid `{FileSizeFormat} (k : MediaKind) (file : File) :
  ~ In (file_type file) (allowedTypes k) \/ file_size file > maxSize k ->
  valid (validateFile k file) = false /\
  exists msg, error (validateFile k file) = Some msg /\ msg <> "".
Proof.
  intros Hbad.
  assert (Hnot : valid (validateFile k file) <> true).
  { intros Hv. destruct k; cbn in Hv, Hbad;
      [apply validateImageFile_valid in Hv
      | apply validateVideoFile_valid in Hv];
      destruct Hv as [Hty Hsz]; destruct Hbad as [Hbad | Hbad];
      try (now apply Hbad);
      unfold imageMaxSize, videoMaxSize in *; lia. }
  destruct k; cbn [validateFile] in *;
    unfold validateImageFile, validateVideoFile in *;
    split_ifs; cbn [valid error] in *; try congruence;
    (split; [reflexivity | eexists; split; [reflexivity | discriminate]]).
Qed.

(** C4: a file whose type is outside its kind's allow-list, or whose size
    exceeds its kind's maximum, makes the file handler ([handlePhotoFile],
    [handleVideoFile]) show one error toast carrying the validation message
    and return: it sends no request, and neither editor's state changes. *)
Theorem invalid_file_rejected_before_network :
  forall (fmt : FileSizeFormat) (k : MediaKind) (file : File) (p : Page),
    ~ In (file_type file) (allowedTypes k) \/ file_size file > maxSize k ->
    exists msg : string,
      error (validateFile k file) = Some msg /\
      msg <> "" /\
      effects_of (handleFile k file) p = [Toast msg "error" 5000] /\
      existsb is_network (effects_of (handleFile k file) p) = false /\
      photoState (page_after (handleFile k file) p) = photoState p /\
      videoState (page_after (handleFile k file) p) = videoState p /\
      polling_loops (page_after (handleFile k file) p) = polling_loops p.
Proof.
  intros fmt k file p Hbad.
  destruct (validateFile_invalid k file Hbad) as (Hinv & msg & Hmsg & Hne).
  exists msg. split; [exact Hmsg | split; [exact Hne |]].
  destruct k; cbn [validateFile handleFile] in *;
    unfold handlePhotoFile, handleVideoFile; rewrite Hinv, Hmsg;
    cbn; repeat split; reflexivity.
Qed.

Lemma invalid_file_rejected_before_network_witness :
  let file := {| file_name := "notes.txt"; file_type := "text/plain";
                 file_size := 12 |} in
  (~ In (file_type file) (allowedTypes Video)
   \/ file_size file > maxSize Video) /\
  existsb is_network
    (effects_of (handleFile (H := sample_format) Video file) page0) = false.
Proof.
  intros file.
  assert (Hbad : ~ In (file_type file) (allowedTypes Video)
                 \/ file_size file > maxSize Video).
  { left. cbn. intros Hin.
    repeat (destruct Hin as [Hin | Hin]; [discriminate Hin |]).
    exact Hin. }
  split; [exact Hbad |].
  destruct (invalid_file_rejected_before_network
              sample_format Video file page0 Hbad)
    as (msg & _ & _ & _ & Hnet & _).
  exact Hnet.
Defined.

(** ** Failures while polling *)

(** C5: when one status request fails (the request is rejected or the
    server answers outside 2xx), [checkVideoStatus] only logs: the page,
    and with it the registered timer, is left exactly as it was, every
    effect is a console message, no toast is shown, and the next firing of
    a registered timer still sends its status request. *)
Theorem failed_poll_is_only_logged :
  forall (fmt : FileSizeFormat) (o : Outcome StatusResponse) (p : Page),
    failed_outcome o = true ->
    let m := step (StatusSettled o) in
    page_after m p = p /\
    effects_of m p <> [] /\
    forallb is_console_error (effects_of m p) = true /\
    existsb is_toast (effects_of m p) = false /\
    polling_loops (page_after m p) = polling_loops p /\
    Forall (fun t =>
              forall job, jobId (videoState p) = Some job -> job <> "" ->
                effects_of (step (IntervalFires (handle t))) (page_after m p)
                = [Fetch "GET" (status_url job) NoBody])
           (polling_loops p).
Proof.
  intros fmt o p Hfail m. subst m.
  assert (Hsame : page_after (step (StatusSettled o)) p = p).
  { destruct o; try discriminate Hfail; destruct p; reflexivity. }
  rewrite Hsame.
  split; [reflexivity |].
  split; [destruct o; try discriminate Hfail; discriminate |].
  split; [destruct o; try discriminate Hfail; reflexivity |].
  split; [destruct o; try discriminate Hfail; reflexivity |].
  split; [reflexivity |].
  apply Forall_forall. intros t Hin job Hjob Hne.
  exact (proj1 (fire_polls p t job Hin Hjob Hne)).
Qed.

Lemma failed_poll_is_only_logged_witness :
  let p := page_after (run (H := sample_format) video_submitted) page0 in
  let o := HttpFailure 503 None : Outcome StatusResponse in
  failed_outcome o = true /\
  page_after (step (H := sample_format) (StatusSettled o)) p = p /\
  existsb is_toast
    (effects_of (step (H := sample_format) (StatusSettled o)) p) = false.
Proof.
  intros p o.
  assert (Hfail : failed_outcome o = true) by reflexivity.
  split; [exact Hfail |].
  destruct (failed_poll_is_only_logged sample_format o p Hfail)
    as (Hsame & _ & _ & Hquiet & _).
  split; [exact Hsame | exact Hquiet].
Defined.

(** C6: on every reachable page, a poll answer with status [failed] clears
    the timer and the stored handle, so that no event sequence without a
    new submission sends another status request, and it shows exactly one
    toast: an error toast whose text is the answer's [error], or
    "Video processing failed" when the answer carries none. *)
Theorem failed_job_reported_once :
  forall (fmt : FileSizeFormat) (evs later : list Event)
         (response : StatusResponse),
    status response = Some "failed" ->
    existsb starts_polling later = false ->
    let p := page_after (run evs) page0 in
    let m := step (StatusSettled (HttpJson response)) in
    polling_loops (page_after m p) = [] /\
    statusPollInterval (videoState (page_after m p)) = None /\
    In (ClearInterval (statusPollInterval (videoState p))) (effects_of m p) /\
    List.filter is_toast (effects_of m p)
      = [Toast (or_default (status_error response) "Video processing failed")
               "error" 5000] /\
    existsb is_poll (effects_of (run later) (page_after m p)) = false.
Proof.
  intros fmt evs later response Hfailed Hlater p m. subst m.
  pose proof (poll_inv_reachable evs) as Hinv. fold p in Hinv.
  assert (Hterm : is_terminal response = true).
  { unfold is_terminal. rewrite Hfailed. reflexivity. }
  destruct (terminal_clears response p Hinv Hterm) as [Hidle Hnull].
  cbn [step].
  split; [exact Hidle | split; [exact Hnull |]].
  split; [| split].
  - destruct p as [ps pe vs ve tm]. eval_handlers. rewrite Hfailed. cbn.
    left. reflexivity.
  - destruct p as [ps pe vs ve tm]. eval_handlers. rewrite Hfailed. cbn.
    reflexivity.
  - exact (proj2 (idle_run later _ Hidle Hlater)).
Qed.

Lemma failed_job_reported_once_witness :
  let p := page_after (run (H := sample_format) video_submitted) page0 in
  let response := {| status := Some "failed"; progress := None;
                     status_error := Some "decode error" |} in
  status response = Some "failed" /\
  existsb starts_polling [IntervalFires 3; UpscaleClick] = false /\
  List.filter is_toast
    (effects_of (step (H := sample_format) (StatusSettled (HttpJson response)))
       p)
    = [Toast "decode error" "error" 5000].
Proof.
  intros p response.
  assert (Hfailed : status response = Some "failed") by reflexivity.
  assert (Hlater : existsb starts_polling [IntervalFires 3; UpscaleClick]
                   = false) by reflexivity.
  split; [exact Hfailed | split; [exact Hlater |]].
  exact (proj1 (proj2 (proj2 (proj2
    (failed_job_reported_once sample_format video_submitted
       [IntervalFires 3; UpscaleClick] response Hfailed Hlater))))).
Defined.

(** ** Downloading the result *)

(** C7, as stated, fails: after a submission was accepted, and before any
    poll has reported [completed], [downloadVideo] builds the download
    action. *)
Lemma download_before_completion :
  ~ (forall (fmt : FileSizeFormat) (evs : list Event),
        existsb reports_completed evs = false ->
        existsb is_download
          (effects_of (download Video) (page_after (run evs) page0)) = false).
Proof.
  intros Hall.
  specialize (Hall sample_format video_submitted eq_refl).
  vm_compute in Hall. discriminate Hall.
Qed.

(** C7, amended: the download operation of either editor ([downloadPhoto],
    [downloadVideo]) fails exactly when no job handle is stored: it then
    shows one error toast and builds no download action.  When a job handle
    is stored it builds the download action for that handle and announces
    the download; the job's status is not consulted. *)
Theorem download_requires_job_handle :
  forall (k : MediaKind) (p : Page),
    (truthy (download_job k p) = false ->
       effects_of (download k) p
       = [Toast (no_artifact_message k) "error" 5000]) /\
    (forall job, download_job k p = Some job -> job <> "" ->
       effects_of (download k) p
       = [Download (download_url k job);
          Toast "Download started!" "success" 5000]).
Proof.
  intros k p. split.
  - intros Hnone. destruct p as [ps pe vs ve tm].
    destruct ps as [pu pj pf pfx]. destruct vs as [u j f md op res q rm spi].
    destruct k; cbn in Hnone; cbn [download]; eval_handlers;
      cbn [photo_jobId]; rewrite Hnone; reflexivity.
  - intros job Hjob Hne. pose proof (truthy_Some _ Hne) as Htruthy.
    destruct p as [ps pe vs ve tm].
    destruct ps as [pu pj pf pfx]. destruct vs as [u j f md op res q rm spi].
    destruct k; cbn in Hjob; subst; cbn [download download_url];
      eval_handlers; cbn [photo_jobId]; rewrite Htruthy; reflexivity.
Qed.

Lemma download_requires_job_handle_witness :
  let p := page_after (run (H := sample_format) video_submitted) page0 in
  (truthy (download_job Image p) = false /\
   effects_of (download Image) p
   = [Toast "No processed photo available" "error" 5000]) /\
  (download_job Video p = Some "J1" /\ "J1" <> "" /\
   effects_of (download Video) p
   = [Download "https://localhost:5000/api/video/download/J1";
      Toast "Download started!" "success" 5000]).
Proof.
  intros p.
  assert (Hnone : truthy (download_job Image p) = false) by reflexivity.
  assert (Hjob : download_job Video p = Some "J1") by reflexivity.
  assert (Hne : "J1" <> "") by discriminate.
  split.
  - split; [exact Hnone |].
    exact (proj1 (download_requires_job_handle Image p) Hnone).
  - split; [exact Hjob | split; [exact Hne |]].
    exact (proj2 (download_requires_job_handle Video p) "J1" Hjob Hne).
Defined.

(** ** The population counter of the country page *)

Lemma populationTimers_filter `{CountryEnv} (p : CountryPage) :
  populationTimers p = filter is_population (active (countryTimers p)).
Proof. reflexivity. Qed.

Lemma filter_swap {A : Type} (f g : A -> bool) (l : list A) :
  filter f (filter g l) = filter g (filter f l).
Proof.
  induction l as [| a l IH]; [reflexivity |]. cbn [filter].
  destruct (f a) eqn:Hf; destruct (g a) eqn:Hg; cbn [filter];
    rewrite ?Hf, ?Hg, IH; reflexivity.
Qed.

(** Population timers left after [clearInterval]. *)
Lemma population_after_remove (h : option Z) (t : Timers CountryCallback) :
  filter is_population (active (remove_interval h t))
  = match h with
    | None => filter is_population (active t)
    | Some n =>
        filter (fun x => negb (handle x =? n))
               (filter is_population (active t))
    end.
Proof.
  destruct h as [n |]; [| reflexivity]. cbn [remove_interval active].
  apply filter_swap.
Qed.

Lemma population_after_add (cb : CountryCallback) (ms : Z)
  (t : Timers CountryCallback) :
  filter is_population (active (add_interval cb ms t))
  = (filter is_population (active t)
       ++ match cb with
          | PopulationTick =>
              [{| handle := next_handle t; callback := cb; delay := ms |}]
          | LoadCryptocurrencyRates => []
          end)%list.
Proof.
  cbn [add_interval active]. rewrite filter_app. destruct cb; reflexivity.
Qed.

(** Clearing the stored handle removes the population timer. *)
Lemma stored_population_timer_cleared `{CountryEnv} (p : CountryPage) :
  population_inv p ->
  truthy_handle (populationInterval p) = true ->
  filter is_population
    (active (remove_interval (populationInterval p) (countryTimers p))) = [].
Proof.
  intros (_ & _ & Hpop) Htruthy. rewrite population_after_remove.
  rewrite <- populationTimers_filter.
  destruct Hpop as [-> | (t & -> & ->)].
  - destruct (populationInterval p); reflexivity.
  - cbn [filter]. rewrite Z.eqb_refl. reflexivity.
Qed.

(** A handle that tests falsy means no population timer is registered. *)
Lemma no_population_timer `{CountryEnv} (p : CountryPage) :
  population_inv p ->
  truthy_handle (populationInterval p) = false ->
  populationTimers p = [].
Proof.
  intros (_ & Hpos & Hpop) Hfalsy.
  destruct Hpop as [Hnone | (t & _ & Hsome)]; [exact Hnone |].
  exfalso. rewrite Hsome in Hfalsy. cbn in Hfalsy.
  specialize (Hpos _ Hsome).
  destruct (Z.eqb_spec (handle t) 0); [lia | discriminate].
Qed.

Lemma startPopulationCounter_one `{CountryEnv} (n : number)
  (p : CountryPage) :
  population_inv p ->
  let p' := fst (startPopulationCounter n p) in
  population_inv p' /\
  exists t, populationTimers p' = [t] /\ callback t = PopulationTick /\
            delay t = 1000 /\ populationInterval p' = Some (handle t).
Proof.
  intros Hinv p'. subst p'. pose proof Hinv as (Hnext & Hpos & Hpop).
  unfold startPopulationCounter. cbn [fst].
  destruct (truthy_handle (populationInterval p)) eqn:Htruthy.
  - assert (Hfresh :
      populationTimers
        {| populationInterval :=
             Some (next_handle
                     (remove_interval (populationInterval p)
                                      (countryTimers p)));
           currentPopulation := n;
           countryTimers :=
             add_interval PopulationTick 1000
               (remove_interval (populationInterval p) (countryTimers p)) |}
      = [{| handle := next_handle
                        (remove_interval (populationInterval p)
                                         (countryTimers p));
            callback := PopulationTick; delay := 1000 |}]).
    { rewrite populationTimers_filter. cbn [countryTimers].
      rewrite population_after_add.
      rewrite (stored_population_timer_cleared p Hinv Htruthy).
      reflexivity. }
    assert (Hsame : next_handle
                      (remove_interval (populationInterval p)
                                       (countryTimers p))
                    = next_handle (countryTimers p))
      by (destruct (populationInterval p); reflexivity).
    split.
    + unfold population_inv. rewrite Hfresh.
      cbn [countryTimers populationInterval add_interval next_handle].
      rewrite Hsame.
      split; [lia | split].
      * intros h Hh. inversion Hh. lia.
      * right. eexists. split; reflexivity.
    + eexists. split; [exact Hfresh | repeat split].
  - pose proof (no_population_timer p Hinv Htruthy) as Hnone.
    assert (Hfresh :
      populationTimers
        {| populationInterval := Some (next_handle (countryTimers p));
           currentPopulation := n;
           countryTimers :=
             add_interval PopulationTick 1000 (countryTimers p) |}
      = [{| handle := next_handle (countryTimers p);
            callback := PopulationTick; delay := 1000 |}]).
    { rewrite populationTimers_filter. cbn [countryTimers].
      rewrite population_after_add, <- populationTimers_filter, Hnone.
      reflexivity. }
    split.
    + unfold population_inv. rewrite Hfresh.
      cbn [countryTimers populationInterval add_interval next_handle].
      split; [lia | split].
      * intros h Hh. inversion Hh. lia.
      * right. eexists. split; reflexivity.
    + eexists. split; [exact Hfresh | repeat split].
Qed.

Lemma population_inv_step `{CountryEnv} (e : CountryEvent)
  (p : CountryPage) :
  population_inv p -> population_inv (fst (countryStep e p)).
Proof.
  intros Hinv. pose proof Hinv as (Hnext & Hpos & Hpop).
  destruct e as [| countryName | h |]; cbn [countryStep].
  - unfold countryLoaded, population_inv. cbn [fst].
    rewrite populationTimers_filter.
    cbn [countryTimers populationInterval].
    rewrite population_after_add, app_nil_r, <- populationTimers_filter.
    cbn [add_interval next_handle].
    split; [lia | split; assumption].
  - unfold selectCountry.
    destruct (find _ countriesData) as [c |]; [| exact Hinv].
    destruct (coordinates c); [| exact Hinv].
    pose proof (startPopulationCounter_one (population c) p Hinv) as [Hq _].
    destruct (startPopulationCounter (population c) p) as [p' effs].
    exact Hq.
  - destruct (find_timer h (countryTimers p)) as [tm |]; [| exact Hinv].
    destruct (callback tm); cbn [runCallback fst]; [exact Hinv |].
    exact Hinv.
  - unfold countryUnload.
    destruct (truthy_handle (populationInterval p)) eqn:Htruthy;
      [| exact Hinv].
    cbn [fst]. unfold population_inv. rewrite populationTimers_filter.
    cbn [countryTimers populationInterval].
    rewrite (stored_population_timer_cleared p Hinv Htruthy).
    split; [destruct (populationInterval p); exact Hnext |].
    split; [exact Hpos | now left].
Qed.

Lemma population_inv_run `{CountryEnv} (evs : list CountryEvent)
  (p : CountryPage) :
  population_inv p -> population_inv (countryRun evs p).
Proof.
  revert p. induction evs as [| e evs IH]; intros p Hinv; [exact Hinv |].
  cbn [countryRun]. apply IH. now apply population_inv_step.
Qed.

Lemma population_inv_page0 `{CountryEnv} : population_inv countryPage0.
Proof.
  unfold population_inv. cbn.
  split; [lia | split; [discriminate | now left]].
Qed.

(** C10: along every sequence of events of the country page at most one
    population timer is registered.  [startPopulationCounter] clears the
    registered population timer, when there is one, before anything else,
    and then registers the new one, which is the only one afterwards; the
    unload handler leaves no population timer registered. *)
Theorem at_most_one_population_timer :
  forall (env : CountryEnv) (evs : list CountryEvent) (n : number),
    let p := countryRun evs countryPage0 in
    (List.length (populationTimers p) <= 1)%nat /\
    Forall (fun t =>
              snd (startPopulationCounter n p)
              = [CountryClearInterval (Some (handle t)); ShowPopulation n;
                 CountrySetInterval (next_handle (countryTimers p)) 1000])
           (populationTimers p) /\
    populationTimers (fst (startPopulationCounter n p))
      = [new_population_timer p] /\
    populationTimers (fst (countryUnload p)) = [].
Proof.
  intros env evs n p.
  assert (Hinv : population_inv p)
    by (apply population_inv_run, population_inv_page0).
  pose proof Hinv as (Hnext & Hpos & Hpop).
  split; [| split; [| split]].
  - destruct Hpop as [-> | (t & -> & _)]; cbn; lia.
  - destruct Hpop as [-> | (t & Hone & Hsome)]; [constructor |].
    rewrite Hone. constructor; [| constructor].
    unfold startPopulationCounter. cbn [snd]. rewrite Hsome.
    specialize (Hpos _ Hsome). cbn [truthy_handle].
    destruct (Z.eqb_spec (handle t) 0) as [Hz | Hz]; [lia |].
    cbn [negb app]. rewrite <- Hsome.
    destruct (populationInterval p); reflexivity.
  - destruct (startPopulationCounter_one n p Hinv)
      as (_ & t & Hone & _ & _ & _).
    rewrite Hone. unfold startPopulationCounter in Hone. cbn [fst] in Hone.
    rewrite populationTimers_filter in Hone. cbn [countryTimers] in Hone.
    rewrite population_after_add in Hone.
    destruct (truthy_handle (populationInterval p)) eqn:Htruthy.
    + rewrite (stored_population_timer_cleared p Hinv Htruthy) in Hone.
      cbn [app] in Hone. inversion Hone. unfold new_population_timer.
      destruct (populationInterval p); reflexivity.
    + rewrite <- populationTimers_filter in Hone.
      rewrite (no_population_timer p Hinv Htruthy) in Hone.
      cbn [app] in Hone. inversion Hone. reflexivity.
  - unfold countryUnload.
    destruct (truthy_handle (populationInterval p)) eqn:Htruthy.
    + cbn [fst]. rewrite populationTimers_filter. cbn [countryTimers].
      exact (stored_population_timer_cleared p Hinv Htruthy).
    + exact (no_population_timer p Hinv Htruthy).
Qed.

(** ** Scenarios *)

(** Upload, submit, one poll in progress, one poll completed, download: the
    loop is gone after the terminal answer, a later firing of the old
    handle does nothing, and the download goes to the finished job. *)
Example scenario_video_job_completes :
  let p := page_after (run (H := sample_format) video_submitted) page0 in
  let evs := [IntervalFires 3; StatusSettled (HttpJson still_processing);
              IntervalFires 3; StatusSettled (HttpJson now_completed);
              IntervalFires 3; VideoDownloadClick] in
  effects_of (run (H := sample_format) evs) p
  = [Fetch "GET" "https://localhost:5000/api/video/status/J1" NoBody;
     Fetch "GET" "https://localhost:5000/api/video/status/J1" NoBody;
     ClearInterval (Some 3);
     Toast "Video processed successfully!" "success" 5000;
     Download "https://localhost:5000/api/video/download/J1";
     Toast "Download started!" "success" 5000]
  /\ polling_loops (page_after (run (H := sample_format) evs) p) = []
  /\ download_hidden
       (videoElements (page_after (run (H := sample_format) evs) p)) = false.
Proof. vm_compute. repeat split. Qed.

(** A resize submitted while the upscaling job is still polled: the first
    timer is cleared before the second is registered. *)
Example scenario_second_submission :
  let p := page_after (run (H := sample_format) video_submitted) page0 in
  let evs := [ResizeClick sample_form;
              ResizeSettled (HttpJson {| job_id := Some "J2" |})] in
  effects_of (run (H := sample_format) evs) p
  = [Fetch "POST" "https://localhost:5000/api/video/resize"
       (ResizeBody (Some "U1") "filesize" (ByFilesize (Some 25)));
     ClearInterval (Some 3);
     SetInterval 5 2000;
     Fetch "GET" "https://localhost:5000/api/video/status/J2" NoBody;
     Toast "Video resizing started" "info" 5000]
  /\ polling_loops (page_after (run (H := sample_format) evs) p)
     = [{| handle := 5; callback := CheckVideoStatus; delay := 2000 |}].
Proof. vm_compute. split; reflexivity. Qed.

(** A file of a type outside the allow-list: one toast, nothing sent. *)
Example scenario_disallowed_type :
  effects_of
    (step (H := sample_format)
       (PhotoFileSelected {| file_name := "notes.txt";
                             file_type := "text/plain"; file_size := 12 |}))
    page0
  = [Toast "Invalid file type. Please upload a JPG, PNG, BMP, GIF, TIFF, or WebP image."
           "error" 5000].
Proof. reflexivity. Qed.

(** A resize accepted as [J2] while the first status request for [J1] is
    still unanswered, then the answer to that request: the resize button
    was enabled at the click, the only status request for [J2] is the one
    sent at submission, and the answer about [J1] clears the timer
    registered for [J2] while [J2] stays stored. *)
Example scenario_late_answer :
  let p := page_after (run (H := sample_format) video_submitted) page0 in
  let evs := [ResizeClick sample_form;
              ResizeSettled (HttpJson {| job_id := Some "J2" |});
              StatusSettled (HttpJson now_completed)] in
  resizeBtn_disabled (videoElements p) = false
  /\ polled_jobs (effects_of (run (H := sample_format) video_submitted) page0)
     = ["J1"]
  /\ effects_of (run (H := sample_format) evs) p
     = [Fetch "POST" "https://localhost:5000/api/video/resize"
          (ResizeBody (Some "U1") "filesize" (ByFilesize (Some 25)));
        ClearInterval (Some 3);
        SetInterval 5 2000;
        Fetch "GET" "https://localhost:5000/api/video/status/J2" NoBody;
        Toast "Video resizing started" "info" 5000;
        ClearInterval (Some 5);
        Toast "Video processed successfully!" "success" 5000]
  /\ polling_loops (page_after (run (H := sample_format) evs) p) = []
  /\ jobId (videoState (page_after (run (H := sample_format) evs) p))
     = Some "J2".
Proof. vm_compute. repeat split. Qed.

(** ** Further properties of the editor page *)

Ltac photo_fields :=
  cbn [photo_uploadId photo_jobId photo_originalFile currentEffects
       photo_processBtn_disabled photo_processing_hidden
       photo_download_hidden set_photo_uploadId set_photo_jobId
       set_photo_originalFile set_currentEffects
       set_photo_processBtn_disabled set_photo_processing_hidden
       set_photo_download_hidden upscaleBtn_disabled resizeBtn_disabled
       processing_hidden download_hidden statusText progressPercent
       set_upscaleBtn_disabled set_resizeBtn_disabled set_processing_hidden
       set_download_hidden set_statusText set_progressPercent].

(** X1: a submission clicked while no upload handle is stored only shows
    an error toast: it sends nothing and leaves both editors, their
    elements and the polling loop as they were. *)
Theorem submission_without_upload_rejected :
  forall (s : Submission) (form : ResizeForm) (p : Page),
    truthy (upload_handle s p) = false ->
    let m := submission_click s form in
    effects_of m p = [Toast (upload_first_message s) "error" 5000] /\
    photoState (page_after m p) = photoState p /\
    photoElements (page_after m p) = photoElements p /\
    videoState (page_after m p) = videoState p /\
    videoElements (page_after m p) = videoElements p /\
    polling_loops (page_after m p) = polling_loops p.
Proof.
  intros s form p Hnone m. subst m.
  destruct p as [ps pe vs ve tm]. destruct ps as [pu pj pf pfx].
  destruct vs as [u j f md op res q rm spi].
  unfold polling_loops.
  destruct s; cbn in Hnone; cbn [submission_click upload_first_message];
    eval_handlers; photo_fields; rewrite Hnone; cbn;
    repeat split; reflexivity.
Qed.

Lemma submission_without_upload_rejected_witness :
  truthy (upload_handle VideoResize page0) = false /\
  effects_of (submission_click VideoResize sample_form) page0
  = [Toast "Please upload a video first" "error" 5000].
Proof.
  assert (Hnone : truthy (upload_handle VideoResize page0) = false)
    by reflexivity.
  split; [exact Hnone |].
  exact (proj1 (submission_without_upload_rejected
                  VideoResize sample_form page0 Hnone)).
Defined.

(** X2: a submission clicked with an upload handle sends exactly one
    request, a POST to its endpoint whose body carries that handle; it
    registers no timer and shows no toast, shows the processing section,
    hides the download section and disables its own button; the stored
    handles do not change. *)
Theorem submission_sends_one_request :
  forall (s : Submission) (form : ResizeForm) (p : Page) (u : string),
    upload_handle s p = Some u ->
    u <> "" ->
    let m := submission_click s form in
    (exists body,
        effects_of m p = [Fetch "POST" (submit_url s) body] /\
        body_upload_id body = Some u) /\
    polling_loops (page_after m p) = polling_loops p /\
    photoState (page_after m p) = photoState p /\
    videoState (page_after m p) = videoState p /\
    processing_section_hidden s (page_after m p) = false /\
    download_section_hidden s (page_after m p) = true /\
    button_disabled s (page_after m p) = true.
Proof.
  intros s form p u Hu Hne m. subst m.
  pose proof (truthy_Some _ Hne) as Htruthy.
  destruct p as [ps pe vs ve tm]. destruct ps as [pu pj pf pfx].
  destruct vs as [vu j f md op res q rm spi].
  unfold polling_loops.
  destruct s; cbn in Hu; subst;
    cbn [submission_click submit_url processing_section_hidden
         download_section_hidden button_disabled];
    eval_handlers; photo_fields; rewrite Htruthy; cbn;
    (split; [eexists; split; reflexivity | repeat split; reflexivity]).
Qed.

Lemma submission_sends_one_request_witness :
  let p := page_after (run (H := sample_format)
                         [VideoFileSelected sample_video;
                          VideoUploadSettled (HttpJson sample_video_upload)])
                      page0 in
  upload_handle VideoUpscale p = Some "U1" /\ "U1" <> "" /\
  exists body,
    effects_of (submission_click VideoUpscale sample_form) p
    = [Fetch "POST" "https://localhost:5000/api/video/upscale" body] /\
    body_upload_id body = Some "U1".
Proof.
  intros p.
  assert (Hu : upload_handle VideoUpscale p = Some "U1") by reflexivity.
  assert (Hne : "U1" <> "") by discriminate.
  split; [exact Hu | split; [exact Hne |]].
  exact (proj1 (submission_sends_one_request VideoUpscale sample_form p "U1"
                  Hu Hne)).
Defined.

Lemma validateFile_valid `{FileSizeFormat} (k : MediaKind) (file : File) :
  In (file_type file) (allowedTypes k) -> file_size file <= maxSize k ->
  valid (validateFile k file) = true.
Proof.
  intros Hty Hsz. destruct k; cbn [validateFile];
    [apply validateImageFile_valid | apply validateVideoFile_valid];
    split; assumption.
Qed.

(** X3: a file that passes validation is stored as the panel's file and
    uploaded: the handler reads it for the preview, shows the uploading
    toast and sends exactly one request, the upload of that file to the
    kind's upload endpoint.  The upload and job handles of both panels and
    the polling loop are untouched. *)
Theorem valid_file_uploaded_once :
  forall (fmt : FileSizeFormat) (k : MediaKind) (file : File) (p : Page),
    In (file_type file) (allowedTypes k) ->
    file_size file <= maxSize k ->
    let m := handleFile k file in
    effects_of m p
    = [ReadFile file; Toast (uploading_message k) "info" 3000;
       XhrSend (upload_url k) file] /\
    stored_file k (page_after m p) = Some file /\
    (forall s, upload_handle s (page_after m p) = upload_handle s p) /\
    (forall s, stored_job s (page_after m p) = stored_job s p) /\
    polling_loops (page_after m p) = polling_loops p.
Proof.
  intros fmt k file p Hty Hsz m. subst m.
  pose proof (validateFile_valid k file Hty Hsz) as Hvalid.
  destruct p as [ps pe vs ve tm]. destruct ps as [pu pj pf pfx].
  destruct vs as [vu j f md op res q rm spi].
  unfold polling_loops.
  destruct k; cbn [validateFile handleFile] in *;
    unfold handlePhotoFile, handleVideoFile; rewrite Hvalid;
    eval_handlers; photo_fields; cbn;
    (split; [reflexivity | split; [reflexivity |]]);
    (split; [intros s; destruct s; reflexivity |]);
    (split; [intros s; destruct s; reflexivity | reflexivity]).
Qed.

Lemma valid_file_uploaded_once_witness :
  In (file_type sample_photo) (allowedTypes Image) /\
  file_size sample_photo <= maxSize Image /\
  effects_of (handleFile (H := sample_format) Image sample_photo) page0
  = [ReadFile sample_photo; Toast "Uploading photo..." "info" 3000;
     XhrSend "https://localhost:5000/api/photo/upload" sample_photo].
Proof.
  assert (Hty : In (file_type sample_photo) (allowedTypes Image))
    by (cbn; auto).
  assert (Hsz : file_size sample_photo <= maxSize Image)
    by (vm_compute; discriminate).
  split; [exact Hty | split; [exact Hsz |]].
  exact (proj1 (valid_file_uploaded_once sample_format Image sample_photo
                  page0 Hty Hsz)).
Defined.

Lemma or_default_nonempty (v : option string) (d : string) :
  d <> "" -> or_default v d <> "".
Proof.
  intros Hd. unfold or_default. destruct v as [s |]; [| exact Hd].
  destruct (String.eqb_spec s ""); assumption.
Qed.

Lemma handleError_text_nonempty (message context : string) :
  (if message === "" then "Failed to " ++ context ++ ". Please try again."
   else message) <> "".
Proof.
  destruct (String.eqb_spec message ""); [discriminate | assumption].
Qed.

(** X4: a submission whose request fails (rejected, or answered outside
    2xx) stores no job handle and starts nothing: the stored job, the
    polling loop and its handle are as before.  The panel hides the
    processing section, enables the button again, logs, and shows exactly
    one error toast whose text is not empty: the failure's own message
    when it has one (the [error] field of the answer, else
    "HTTP error! status: N"), else a default naming the operation. *)
Theorem failed_submission_changes_no_job :
  forall (s : Submission) (o : Outcome SubmitResponse) (p : Page),
    failed_outcome o = true ->
    let m := submission_resumed s o in
    stored_job s (page_after m p) = stored_job s p /\
    polling_loops (page_after m p) = polling_loops p /\
    statusPollInterval (videoState (page_after m p))
      = statusPollInterval (videoState p) /\
    processing_section_hidden s (page_after m p) = true /\
    button_disabled s (page_after m p) = false /\
    existsb is_network (effects_of m p) = false /\
    existsb is_set_interval (effects_of m p) = false /\
    exists msg,
      List.filter is_toast (effects_of m p) = [Toast msg "error" 5000] /\
      msg <> "" /\
      msg = (if failure_message "HTTP error! status: " o === ""
             then "Failed to " ++ submit_context s ++ ". Please try again."
             else failure_message "HTTP error! status: " o).
Proof.
  intros s o p Hfail m. subst m.
  destruct p as [ps pe vs ve tm]. destruct ps as [pu pj pf pfx].
  destruct vs as [vu j f md op res q rm spi].
  unfold polling_loops.
  destruct o as [msg0 | st e | body | st]; try discriminate Hfail;
    destruct s;
    cbn [submission_resumed stored_job processing_section_hidden
         button_disabled failure_message submit_context];
    eval_handlers; photo_fields.
  all: repeat (split; [reflexivity |]).
  all: eexists; split; [reflexivity |];
    split; [apply handleError_text_nonempty | reflexivity].
Qed.

Lemma failed_submission_changes_no_job_witness :
  let p := page_after (run (H := sample_format) video_submitted) page0 in
  let o := HttpFailure 500 (Some "disk full") : Outcome SubmitResponse in
  failed_outcome o = true /\
  stored_job VideoResize (page_after (submission_resumed VideoResize o) p)
  = Some "J1" /\
  List.length
    (polling_loops (page_after (submission_resumed VideoResize o) p)) = 1%nat.
Proof.
  intros p o.
  assert (Hfail : failed_outcome o = true) by reflexivity.
  destruct (failed_submission_changes_no_job VideoResize o p Hfail)
    as (Hjob & Hloops & _).
  split; [exact Hfail | split].
  - rewrite Hjob. reflexivity.
  - rewrite Hloops. reflexivity.
Defined.

Lemma uploadFile_settled_message {A : Type} (o : Outcome A) (msg : string) :
  uploadFile_settled o = inl msg -> msg <> "".
Proof.
  destruct o as [m | st e | body | st]; cbn; intros Heq;
    inversion Heq; subst; try discriminate.
  apply or_default_nonempty. discriminate.
Qed.

Lemma reset_cleans (p : Page) :
  poll_inv p ->
  video_editor_clean (page_after resetVideoEditor p) /\
  photoState (page_after resetVideoEditor p) = photoState p /\
  photoElements (page_after resetVideoEditor p) = photoElements p /\
  existsb is_toast (effects_of resetVideoEditor p) = false /\
  existsb is_network (effects_of resetVideoEditor p) = false.
Proof.
  intros (Hpos & Hstored & Hact).
  destruct p as [ps pe vs ve tm]. destruct tm as [nh act].
  destruct vs as [u j f md op res q rm spi].
  unfold poll_inv, video_editor_clean, polling_loops in *.
  cbn in Hpos, Hstored, Hact.
  assert (Hspi : match spi with Some h => 0 < h < nh | None => True end)
    by (destruct spi; auto).
  clear Hstored.
  destruct Hact as [-> | (t & -> & -> & Hdelay)]; [destruct spi as [h |] |];
    eval_handlers; split_ifs; eval_handlers; photo_fields;
    try falsy_handle;
    try (rewrite Z.eqb_refl in *; discriminate);
    repeat split; reflexivity.
Qed.

(** X5: on every reachable page, [resetVideoEditor] (the remove button)
    leaves the video editor clean: no upload handle, job handle, file or
    metadata, no stored timer handle and no polling loop, both buttons
    disabled, both status sections hidden.  It shows no toast, sends
    nothing and does not touch the photo editor. *)
Theorem reset_leaves_video_editor_clean :
  forall (fmt : FileSizeFormat) (evs : list Event),
    let p := page_after (run evs) page0 in
    let m := step VideoRemoveClick in
    video_editor_clean (page_after m p) /\
    photoState (page_after m p) = photoState p /\
    photoElements (page_after m p) = photoElements p /\
    existsb is_toast (effects_of m p) = false /\
    existsb is_network (effects_of m p) = false.
Proof.
  intros fmt evs p m. subst m. cbn [step].
  apply reset_cleans. apply poll_inv_reachable.
Qed.

(** X6: on every reachable page, a failed video upload shows exactly one
    toast, an error toast with the failure's message, which is never
    empty (the answer's [error] field, else "Upload failed with status N",
    "Network error during upload" or "Invalid JSON response"), and then
    resets the video editor to its clean state, polling loop included. *)
Theorem failed_video_upload_resets :
  forall (fmt : FileSizeFormat) (evs : list Event)
         (o : Outcome VideoUploadResponse) (msg : string),
    uploadFile_settled o = inl msg ->
    let p := page_after (run evs) page0 in
    let m := handleVideoFile_resumed o in
    msg <> "" /\
    List.filter is_toast (effects_of m p) = [Toast msg "error" 5000] /\
    existsb is_network (effects_of m p) = false /\
    video_editor_clean (page_after m p).
Proof.
  intros fmt evs o msg Hsettled p m. subst m.
  pose proof (uploadFile_settled_message o msg Hsettled) as Hne.
  split; [exact Hne |].
  unfold handleVideoFile_resumed. rewrite Hsettled.
  rewrite effects_of_bind, page_after_bind.
  set (p1 := page_after (handleError msg "upload video") p).
  assert (Hinv1 : poll_inv p1).
  { pose proof (poll_inv_reachable evs) as (Hpos & Hstored & Hact).
    fold p in Hpos, Hstored, Hact. subst p1.
    destruct p as [ps pe vs ve tm]. destruct tm as [nh act].
    unfold poll_inv in *. eval_handlers. cbn in *.
    split; [lia | split; [| exact Hact]].
    intros h Hh. specialize (Hstored h Hh). lia. }
  destruct (reset_cleans p1 Hinv1) as (Hclean & _ & _ & Htoast & Hnet).
  assert (Herr : effects_of (handleError msg "upload video") p
                 = [ConsoleError "Error during upload video:" msg;
                    Toast msg "error" 5000]).
  { destruct p as [ps pe vs ve tm]. eval_handlers.
    destruct (String.eqb_spec msg ""); [contradiction | reflexivity]. }
  rewrite Herr.
  split; [| split; [| exact Hclean]].
  - cbn [List.filter is_toast app].
    assert (Hnone : forall l, existsb is_toast l = false ->
                              List.filter is_toast l = []).
    { induction l as [| a l IH]; [reflexivity |]. cbn.
      destruct (is_toast a); [discriminate | exact IH]. }
    rewrite (Hnone _ Htoast). reflexivity.
  - rewrite existsb_app, Hnet. reflexivity.
Qed.

Lemma failed_video_upload_resets_witness :
  let o := HttpFailure 413 (Some "file too large")
           : Outcome VideoUploadResponse in
  uploadFile_settled o = inl "file too large" /\
  video_editor_clean
    (page_after (handleVideoFile_resumed o)
       (page_after (run (H := sample_format) video_submitted) page0)).
Proof.
  intros o.
  assert (Hsettled : uploadFile_settled o = inl "file too large")
    by reflexivity.
  split; [exact Hsettled |].
  exact (proj2 (proj2 (proj2
    (failed_video_upload_resets sample_format video_submitted o
       "file too large" Hsettled)))).
Defined.



(** X8: on every reachable page the unload handler leaves no polling
    loop registered, and after it no sequence of events without a new
    submission sends a status request. *)
Theorem unload_stops_polling :
  forall (fmt : FileSizeFormat) (evs later : list Event),
    existsb starts_polling later = false ->
    let p' := page_after (step BeforeUnload) (page_after (run evs) page0) in
    polling_loops p' = [] /\
    existsb is_poll (effects_of (run later) p') = false.
Proof.
  intros fmt evs later Hlater p'.
  assert (Hidle : polling_loops p' = []).
  { subst p'. pose proof (poll_inv_reachable evs) as (Hpos & Hstored & Hact).
    destruct (page_after (run evs) page0) as [ps pe vs ve tm].
    destruct tm as [nh act]. destruct vs as [u j f md op res q rm spi].
    unfold polling_loops. cbn in Hpos, Hstored, Hact.
    assert (Hspi : match spi with Some h => 0 < h < nh | None => True end)
      by (destruct spi; auto).
    clear Hstored.
    destruct Hact as [-> | (t & -> & -> & Hdelay)]; [destruct spi as [h |] |];
      eval_handlers; split_ifs; eval_handlers; try falsy_handle;
      try (rewrite Z.eqb_refl in *; discriminate); reflexivity. }
  split; [exact Hidle |].
  exact (proj2 (idle_run later p' Hidle Hlater)).
Qed.

Lemma unload_stops_polling_witness :
  existsb starts_polling [IntervalFires 3; UpscaleClick] = false /\
  existsb is_poll
    (effects_of (run (H := sample_format) [IntervalFires 3; UpscaleClick])
       (page_after (step (H := sample_format) BeforeUnload)
          (page_after (run (H := sample_format) video_submitted) page0)))
  = false.
Proof.
  assert (Hlater : existsb starts_polling [IntervalFires 3; UpscaleClick]
                   = false) by reflexivity.
  split; [exact Hlater |].
  exact (proj2 (unload_stops_polling sample_format video_submitted
                  [IntervalFires 3; UpscaleClick] Hlater)).
Defined.



(** X10: a poll answer with status [completed] hides the processing
    section, shows the download section, enables both buttons and shows
    exactly one toast, the success toast; the stored job handle stays, so
    that the download that follows goes to that job. *)
Theorem completed_answer_offers_download :
  forall (response : StatusResponse) (job : string) (p : Page),
    status response = Some "completed" ->
    jobId (videoState p) = Some job ->
    job <> "" ->
    let m := checkVideoStatus_resumed (HttpJson response) in
    processing_hidden (videoElements (page_after m p)) = true /\
    download_hidden (videoElements (page_after m p)) = false /\
    upscaleBtn_disabled (videoElements (page_after m p)) = false /\
    resizeBtn_disabled (videoElements (page_after m p)) = false /\
    List.filter is_toast (effects_of m p)
    = [Toast "Video processed successfully!" "success" 5000] /\
    existsb is_network (effects_of m p) = false /\
    effects_of downloadVideo (page_after m p)
    = [Download (download_url Video job);
       Toast "Download started!" "success" 5000].
Proof.
  intros response job p Hdone Hjob Hne m. subst m.
  pose proof (truthy_Some _ Hne) as Htruthy.
  destruct p as [ps pe vs ve tm]. destruct ve as [ub rb ph dh st pp].
  destruct vs as [u j f md op res q rm spi]. cbn in Hjob. subst j.
  eval_handlers. rewrite Hdone. cbn [status_is String.eqb Ascii.eqb Bool.eqb].
  eval_handlers. photo_fields. rewrite Htruthy.
  repeat split; reflexivity.
Qed.

Lemma completed_answer_offers_download_witness :
  let p := page_after (run (H := sample_format) video_submitted) page0 in
  status now_completed = Some "completed" /\
  jobId (videoState p) = Some "J1" /\ "J1" <> "" /\
  effects_of downloadVideo
    (page_after (checkVideoStatus_resumed (HttpJson now_completed)) p)
  = [Download "https://localhost:5000/api/video/download/J1";
     Toast "Download started!" "success" 5000].
Proof.
  intros p.
  assert (Hdone : status now_completed = Some "completed") by reflexivity.
  assert (Hjob : jobId (videoState p) = Some "J1") by reflexivity.
  assert (Hne : "J1" <> "") by discriminate.
  split; [exact Hdone | split; [exact Hjob | split; [exact Hne |]]].
  exact (proj2 (proj2 (proj2 (proj2 (proj2 (proj2
    (completed_answer_offers_download now_completed "J1" p
       Hdone Hjob Hne))))))).
Defined.

(** X11: the two panels do not interfere.  An event of the photo panel
    leaves the video state, the video elements and the polling loop as
    they were and sends no status request; every other event leaves the
    photo state and the photo elements as they were. *)
Theorem panels_do_not_interfere :
  forall (fmt : FileSizeFormat) (e : Event) (p : Page),
    if is_photo_event e then
      videoState (page_after (step e) p) = videoState p /\
      videoElements (page_after (step e) p) = videoElements p /\
      polling_loops (page_after (step e) p) = polling_loops p /\
      existsb is_poll (effects_of (step e) p) = false
    else
      photoState (page_after (step e) p) = photoState p /\
      photoElements (page_after (step e) p) = photoElements p.
Proof.
  intros fmt e p.
  destruct p as [ps pe vs ve tm]. destruct tm as [nh act].
  destruct vs as [u j f md op res q rm spi].
  unfold polling_loops.
  destruct e; try destruct o; cbn [is_photo_event]; eval_handlers;
    split_ifs; eval_handlers; repeat split; reflexivity.
Qed.

(** X12: removing the photo (or any other call of [resetPhotoEditor])
    leaves the photo editor as at page load, whatever the state before:
    no upload handle, job handle or file, the default effects, the
    process button disabled and both status sections hidden.  It shows
    the one toast of [resetEffects], sends nothing and does not touch the
    video editor. *)
Theorem photo_reset_restores_initial_state :
  forall (p : Page),
    photoState (page_after resetPhotoEditor p) = photoState0 /\
    photoElements (page_after resetPhotoEditor p) = photoElements0 /\
    effects_of resetPhotoEditor p
    = [Toast "Effects reset to default" "info" 2000] /\
    videoState (page_after resetPhotoEditor p) = videoState p /\
    polling_loops (page_after resetPhotoEditor p) = polling_loops p.
Proof.
  intros p. destruct p as [ps pe vs ve tm].
  destruct ps as [pu pj pf pfx]. destruct pe as [pb pp pd].
  unfold polling_loops. eval_handlers. repeat split; reflexivity.
Qed.

Lemma int_or_nonzero (v : option Z) (d : Z) : d <> 0 -> int_or v d <> 0.
Proof.
  intros Hd. unfold int_or. destruct v as [n |]; [| exact Hd].
  destruct (Z.eqb_spec n 0); assumption.
Qed.

(** X13: a resize by dimensions never asks for a zero or unparsable
    width or height: an input that [parseInt] cannot read, or that reads
    as 0, is replaced by 1280 (width) or 720 (height), and any other
    number is sent as it is. *)
Theorem resize_by_dimensions_sends_usable_size :
  forall (form : ResizeForm) (p : Page) (u : string),
    uploadId (videoState p) = Some u ->
    u <> "" ->
    resizeMethod (videoState p) = "dimensions" ->
    exists w h : Z,
      effects_of (resizeVideo form) p
      = [Fetch "POST" (submit_url VideoResize)
           (ResizeBody (Some u) "dimensions"
              (ByDimensions w h (maintainAspect form)))] /\
      w <> 0 /\ h <> 0 /\
      (forall n, resizeWidth form = Some n -> n <> 0 -> w = n) /\
      (forall n, resizeHeight form = Some n -> n <> 0 -> h = n) /\
      (resizeWidth form = None \/ resizeWidth form = Some 0 -> w = 1280) /\
      (resizeHeight form = None \/ resizeHeight form = Some 0 -> h = 720).
Proof.
  intros form p u Hu Hne Hmethod.
  pose proof (truthy_Some _ Hne) as Htruthy.
  exists (int_or (resizeWidth form) 1280), (int_or (resizeHeight form) 720).
  split.
  - destruct p as [ps pe vs ve tm].
    destruct vs as [vu j f md op res q rm spi]. cbn in Hu, Hmethod. subst.
    eval_handlers. rewrite Htruthy. reflexivity.
  - split; [apply int_or_nonzero; discriminate |].
    split; [apply int_or_nonzero; discriminate |].
    unfold int_or.
    split; [intros n -> Hn; destruct (Z.eqb_spec n 0); congruence |].
    split; [intros n -> Hn; destruct (Z.eqb_spec n 0); congruence |].
    split; intros [-> | ->]; reflexivity.
Qed.

Lemma resize_by_dimensions_sends_usable_size_witness :
  let p := page_after (run (H := sample_format)
                         [VideoFileSelected sample_video;
                          VideoUploadSettled (HttpJson sample_video_upload);
                          ResizeMethodChange "dimensions"])
                      page0 in
  let form := {| targetFilesize := None; resizeWidth := Some 0;
                 resizeHeight := Some 480; maintainAspect := false |} in
  uploadId (videoState p) = Some "U1" /\ "U1" <> "" /\
  resizeMethod (videoState p) = "dimensions" /\
  exists w h : Z,
    effects_of (resizeVideo form) p
    = [Fetch "POST" (submit_url VideoResize)
         (ResizeBody (Some "U1") "dimensions" (ByDimensions w h false))] /\
    w <> 0 /\ h <> 0.
Proof.
  intros p form.
  assert (Hu : uploadId (videoState p) = Some "U1") by reflexivity.
  assert (Hne : "U1" <> "") by discriminate.
  assert (Hm : resizeMethod (videoState p) = "dimensions") by reflexivity.
  split; [exact Hu | split; [exact Hne | split; [exact Hm |]]].
  destruct (resize_by_dimensions_sends_usable_size form p "U1" Hu Hne Hm)
    as (w & h & Heff & Hw & Hh & _).
  exists w, h. split; [exact Heff | split; assumption].
Defined.

(** X14: the process request carries the effects the controls last set.
    After a slider input the next request holds the slider's value and
    every other slider's value as before; after [resetEffects] the next
    request holds the default effects and a null filter, whatever was set
    before. *)
Theorem process_request_carries_current_effects :
  forall (fmt : FileSizeFormat) (p : Page) (u : string),
    photo_uploadId (photoState p) = Some u ->
    u <> "" ->
    (forall (s s' : Slider) (v : Q),
        exists filter fx,
          sent_body (effects_of processPhoto
                       (page_after (step (slider_event s v)) p))
          = Some (ProcessBody (Some u) filter fx) /\
          slider_value s' fx
          = (if slider_eqb s s' then v
             else slider_value s' (currentEffects (photoState p)))) /\
    sent_body (effects_of processPhoto
                 (page_after (step ResetEffectsClick) p))
    = Some (ProcessBody (Some u) None defaultEffects).
Proof.
  intros fmt p u Hu Hne.
  pose proof (truthy_Some _ Hne) as Htruthy.
  destruct p as [ps pe vs ve tm]. destruct ps as [pu pj pf pfx].
  cbn in Hu. subst pu.
  split.
  - intros s s' v.
    destruct s; cbn [slider_event]; eval_handlers; photo_fields;
      rewrite Htruthy; cbn [negb sent_body];
      eexists; eexists; (split; [reflexivity |]); destruct s'; reflexivity.
  - eval_handlers. photo_fields. rewrite Htruthy. reflexivity.
Qed.

Lemma process_request_carries_current_effects_witness :
  let p := page_after (run (H := sample_format)
                         [PhotoFileSelected sample_photo;
                          PhotoUploadSettled (HttpJson sample_photo_upload);
                          FilterChange "sepia"; ContrastInput (3 # 2)])
                      page0 in
  photo_uploadId (photoState p) = Some "U1" /\ "U1" <> "" /\
  sent_body (effects_of processPhoto
               (page_after (step (H := sample_format) ResetEffectsClick) p))
  = Some (ProcessBody (Some "U1") None defaultEffects).
Proof.
  intros p.
  assert (Hu : photo_uploadId (photoState p) = Some "U1") by reflexivity.
  assert (Hne : "U1" <> "") by discriminate.
  split; [exact Hu | split; [exact Hne |]].
  exact (proj2 (process_request_carries_current_effects
                  sample_format p "U1" Hu Hne)).
Defined.

(** ** Duration text *)

(** X15: for a whole number of seconds from 0 up to the largest safe
    integer, 2^53 - 1, the text of [formatDuration] is built from hours
    [h], minutes [m] and seconds [s] with [m] and [s] below 60 and
    [h*3600 + m*60 + s] the given duration; hours are shown exactly from
    3600 seconds on, minutes exactly from 60 seconds on. *)
Theorem formatDuration_parts :
  forall seconds : Z,
    0 <= seconds <= 9007199254740991 ->
    exists h m s : Z,
      h * 3600 + m * 60 + s = seconds /\
      0 <= h /\ 0 <= m < 60 /\ 0 <= s < 60 /\
      formatDuration seconds
      = (if 3600 <=? seconds then
           show_int h ++ "h " ++ show_int m ++ "m " ++ show_int s ++ "s"
         else if 60 <=? seconds then show_int m ++ "m " ++ show_int s ++ "s"
         else show_int s ++ "s").
Proof.
  intros seconds [Hnonneg Hsafe].
  exists (seconds / 3600), (Z.rem seconds 3600 / 60), (Z.rem seconds 60).
  rewrite !Z.rem_mod_nonneg by lia.
  assert (Hparts : seconds / 3600 * 3600 + seconds mod 3600 / 60 * 60
                   + seconds mod 60 = seconds
                   /\ 0 <= seconds / 3600
                   /\ 0 <= seconds mod 3600 / 60 < 60
                   /\ 0 <= seconds mod 60 < 60).
  { Z.to_euclidean_division_equations. lia. }
  destruct Hparts as (Hsum & Hh & Hm & Hs).
  repeat (split; [assumption |]).
  unfold formatDuration. rewrite !Z.rem_mod_nonneg by lia.
  destruct (Z.leb_spec 3600 seconds) as [Hbig | Hsmall].
  - assert (Hpos : (seconds / 3600 >? 0) = true).
    { apply Z.gtb_lt. Z.to_euclidean_division_equations. lia. }
    rewrite Hpos. reflexivity.
  - assert (Hzero : (seconds / 3600 >? 0) = false).
    { destruct (Z.gtb_spec (seconds / 3600) 0); [| reflexivity].
      Z.to_euclidean_division_equations. lia. }
    rewrite Hzero.
    destruct (Z.leb_spec 60 seconds) as [Hmid | Hlow].
    + assert (Hmin : (seconds mod 3600 / 60 >? 0) = true).
      { apply Z.gtb_lt. Z.to_euclidean_division_equations. lia. }
      rewrite Hmin. reflexivity.
    + assert (Hmin : (seconds mod 3600 / 60 >? 0) = false).
      { destruct (Z.gtb_spec (seconds mod 3600 / 60) 0); [| reflexivity].
        Z.to_euclidean_division_equations. lia. }
      rewrite Hmin. reflexivity.
Qed.

Lemma formatDuration_parts_witness :
  0 <= 3725 <= 9007199254740991 /\
  exists h m s : Z,
    h * 3600 + m * 60 + s = 3725 /\
    0 <= h /\ 0 <= m < 60 /\ 0 <= s < 60 /\
    "1h 2m 5s"
    = show_int h ++ "h " ++ show_int m ++ "m " ++ show_int s ++ "s".
Proof.
  assert (Hrange : 0 <= 3725 <= 9007199254740991) by lia.
  split; [exact Hrange |].
  exact (formatDuration_parts 3725 Hrange).
Defined.

(** ** The rock-paper-scissors page *)

Lemma playGameOn_keeps_autoplay (playerMove : string) (r : Q) (g : Game) :
  isAutoPlaying (playGameOn playerMove r g) = isAutoPlaying g /\
  intervalId (playGameOn playerMove r g) = intervalId g /\
  gameTimers (playGameOn playerMove r g) = gameTimers g.
Proof. unfold playGameOn, playGame. cbn. repeat split. Qed.

Lemma playGameOn_score (playerMove : string) (r : Q) (g : Game) :
  score (playGameOn playerMove r g) = fst (playGame playerMove r (score g)) /\
  scoreElement (playGameOn playerMove r g)
  = scoreText (fst (playGame playerMove r (score g))).
Proof. unfold playGameOn, playGame. cbn. split; reflexivity. Qed.

Lemma autoplay_inv_frame (g g' : Game) :
  isAutoPlaying g' = isAutoPlaying g ->
  intervalId g' = intervalId g ->
  gameTimers g' = gameTimers g ->
  autoplay_inv g -> autoplay_inv g'.
Proof.
  unfold autoplay_inv. intros -> -> ->. exact (fun H => H).
Qed.

Lemma autoplay_inv_play (playerMove : string) (r : Q) (g : Game) :
  autoplay_inv g -> autoplay_inv (playGameOn playerMove r g).
Proof.
  destruct (playGameOn_keeps_autoplay playerMove r g) as (H1 & H2 & H3).
  now apply autoplay_inv_frame.
Qed.

Lemma autoplay_inv_step (e : GameEvent) (g : Game) :
  autoplay_inv g -> autoplay_inv (gameStep e g).
Proof.
  intros Hinv.
  destruct e as [r | r | r | key r | | h r1 r2]; cbn [gameStep].
  - now apply autoplay_inv_play.
  - now apply autoplay_inv_play.
  - now apply autoplay_inv_play.
  - unfold keydown.
    destruct (key === "r"); [now apply autoplay_inv_play |].
    destruct (key === "p"); [now apply autoplay_inv_play |].
    destruct (key === "s"); [now apply autoplay_inv_play | exact Hinv].
  - destruct Hinv as [Hpos Hflag]. unfold autoplay_inv, autoPlay.
    destruct (isAutoPlaying g); cbn [negb].
    + destruct Hflag as (t & Hone & Hid & _).
      cbn [isAutoPlaying gameTimers]. rewrite Hid.
      cbn [remove_interval next_handle active]. rewrite Hone.
      cbn [filter]. rewrite Z.eqb_refl.
      split; [exact Hpos | reflexivity].
    + cbn [isAutoPlaying gameTimers intervalId add_interval next_handle
           active].
      rewrite Hflag. split; [lia |].
      eexists. split; [reflexivity | split; reflexivity].
  - destruct (find_timer h (gameTimers g)) as [tm |]; [| exact Hinv].
    destruct (callback tm). now apply autoplay_inv_play.
Qed.

Lemma autoplay_inv_run (evs : list GameEvent) (g : Game) :
  autoplay_inv g -> autoplay_inv (gameRun evs g).
Proof.
  revert g. induction evs as [| e evs IH]; intros g Hinv; [exact Hinv |].
  cbn [gameRun]. apply IH. now apply autoplay_inv_step.
Qed.

(** X16: along every sequence of clicks, keys, [autoPlay] calls and timer
    firings, auto play is on exactly when one timer is registered: when
    [isAutoPlaying] holds there is exactly one timer, with a period of
    3000 ms and the handle kept in [intervalId]; otherwise there is
    none.  So at most one auto-play timer ever runs. *)
Theorem autoplay_runs_one_timer :
  forall (stored : option Score) (evs : list GameEvent),
    let g := gameRun evs (game0 stored) in
    (List.length (active (gameTimers g)) <= 1)%nat /\
    if isAutoPlaying g then
      exists t, active (gameTimers g) = [t] /\
                intervalId g = Some (handle t) /\
                delay t = 3000
    else active (gameTimers g) = [].
Proof.
  intros stored evs g.
  assert (Hinv : autoplay_inv g).
  { apply autoplay_inv_run. unfold autoplay_inv. cbn. split; [lia |].
    reflexivity. }
  destruct Hinv as [_ Hflag]. split; [| exact Hflag].
  destruct (isAutoPlaying g).
  - destruct Hflag as (t & -> & _). cbn. lia.
  - rewrite Hflag. cbn. lia.
Qed.

Lemma score_shown_step (e : GameEvent) (g : Game) :
  scoreElement g = scoreText (score g) ->
  scoreElement (gameStep e g) = scoreText (score (gameStep e g)).
Proof.
  intros Hshown.
  assert (Hplay : forall m r,
             scoreElement (playGameOn m r g)
             = scoreText (score (playGameOn m r g))).
  { intros m r. destruct (playGameOn_score m r g) as [-> ->]. reflexivity. }
  destruct e as [r | r | r | key r | | h r1 r2]; cbn [gameStep];
    try apply Hplay.
  - unfold keydown.
    destruct (key === "r"); [apply Hplay |].
    destruct (key === "p"); [apply Hplay |].
    destruct (key === "s"); [apply Hplay | exact Hshown].
  - unfold autoPlay. destruct (isAutoPlaying g); exact Hshown.
  - destruct (find_timer h (gameTimers g)) as [tm |]; [| exact Hshown].
    destruct (callback tm). apply Hplay.
Qed.

(** X17: the score line on the page always shows the current score:
    along every sequence of events, from whatever score local storage
    held, the text of the score element is the rendering of [score]. *)
Theorem score_line_shows_score :
  forall (stored : option Score) (evs : list GameEvent),
    let g := gameRun evs (game0 stored) in
    scoreElement g = scoreText (score g).
Proof.
  intros stored evs g. subst g.
  assert (Hstart : scoreElement (game0 stored)
                   = scoreText (score (game0 stored))) by reflexivity.
  revert Hstart. generalize (game0 stored).
  induction evs as [| e evs IH]; intros g Hshown; [exact Hshown |].
  cbn [gameRun]. apply IH. now apply score_shown_step.
Qed.

Lemma playGame_adds_one (playerMove : string) (r : Q) (s : Score) :
  In playerMove moves -> unit_interval r ->
  total (fst (playGame playerMove r s)) = total s + 1.
Proof.
  intros Hp [H0 H1].
  pose proof (pickComputerMove_in_moves r H0 H1) as Hc.
  unfold playGame. cbn [fst]. unfold total.
  each_move Hp; each_move Hc; rewrite <- Hc; cbn; lia.
Qed.

Lemma updateScore_monotone (result : string) (s : Score) :
  wins s <= wins (updateScore result s) /\
  losses s <= losses (updateScore result s) /\
  ties s <= ties (updateScore result s) /\
  total (updateScore result s) <= total s + 1.
Proof.
  unfold updateScore, total.
  destruct (result === "Ganaste"); [cbn; lia |].
  destruct (result === "Perdiste"); [cbn; lia |].
  destruct (result === "Empate"); cbn; lia.
Qed.

Lemma find_timer_active {C : Type} (h : Z) (t : Timers C) :
  is_active h t = match find_timer h t with Some _ => true | None => false end.
Proof.
  unfold is_active, find_timer. induction (active t) as [| a l IH];
    [reflexivity |].
  cbn. destruct (handle a =? h); [reflexivity | exact IH].
Qed.

(** X18: with random values as [Math.random] returns them, an event adds
    exactly one game to the score when it is a click on a move, a key
    [r], [p] or [s], or a firing of a registered timer, and adds none
    otherwise (another key, an [autoPlay] call, a firing of a cleared
    timer). *)
Theorem every_play_counts_once :
  forall (e : GameEvent) (g : Game),
    randoms_in_range e ->
    total (score (gameStep e g))
    = total (score g) + (if plays e g then 1 else 0).
Proof.
  intros e g Hrand.
  assert (Hplay : forall m r, In m moves -> unit_interval r ->
             total (score (playGameOn m r g)) = total (score g) + 1).
  { intros m r Hm Hr. rewrite (proj1 (playGameOn_score m r g)).
    now apply playGame_adds_one. }
  destruct e as [r | r | r | key r | | h r1 r2];
    cbn [gameStep plays randoms_in_range] in *.
  - apply Hplay; [cbn; auto | exact Hrand].
  - apply Hplay; [cbn; auto | exact Hrand].
  - apply Hplay; [cbn; auto | exact Hrand].
  - unfold keydown.
    destruct (key === "r"); [apply Hplay; [cbn; auto | exact Hrand] |].
    destruct (key === "p"); [apply Hplay; [cbn; auto | exact Hrand] |].
    destruct (key === "s"); [apply Hplay; [cbn; auto | exact Hrand] |].
    cbn. lia.
  - unfold autoPlay. destruct (isAutoPlaying g); cbn; lia.
  - rewrite find_timer_active.
    destruct (find_timer h (gameTimers g)) as [tm |]; [| lia].
    destruct (callback tm). destruct Hrand as [[H0 H1] Hr2].
    apply Hplay; [now apply pickComputerMove_in_moves | exact Hr2].
Qed.

Lemma every_play_counts_once_witness :
  randoms_in_range (KeyDown "p" (1 # 10)) /\
  total (score (gameStep (KeyDown "p" (1 # 10)) (game0 None))) = 1.
Proof.
  assert (Hrand : randoms_in_range (KeyDown "p" (1 # 10))).
  { cbn. split; [apply Qle_bool_iff; reflexivity | reflexivity]. }
  split; [exact Hrand |].
  exact (every_play_counts_once (KeyDown "p" (1 # 10)) (game0 None) Hrand).
Defined.

(** X19: whatever the moves and random values, no event lowers a
    counter and no event adds more than one to their sum. *)
Theorem counters_never_decrease :
  forall (e : GameEvent) (g : Game),
    wins (score g) <= wins (score (gameStep e g)) /\
    losses (score g) <= losses (score (gameStep e g)) /\
    ties (score g) <= ties (score (gameStep e g)) /\
    total (score (gameStep e g)) <= total (score g) + 1.
Proof.
  intros e g.
  assert (Hplay : forall m r,
             wins (score g) <= wins (score (playGameOn m r g)) /\
             losses (score g) <= losses (score (playGameOn m r g)) /\
             ties (score g) <= ties (score (playGameOn m r g)) /\
             total (score (playGameOn m r g)) <= total (score g) + 1).
  { intros m r. rewrite (proj1 (playGameOn_score m r g)).
    unfold playGame. cbn [fst]. apply updateScore_monotone. }
  assert (Hsame : wins (score g) <= wins (score g) /\
                  losses (score g) <= losses (score g) /\
                  ties (score g) <= ties (score g) /\
                  total (score g) <= total (score g) + 1) by lia.
  destruct e as [r | r | r | key r | | h r1 r2]; cbn [gameStep];
    try apply Hplay.
  - unfold keydown.
    destruct (key === "r"); [apply Hplay |].
    destruct (key === "p"); [apply Hplay |].
    destruct (key === "s"); [apply Hplay | exact Hsame].
  - unfold autoPlay. destruct (isAutoPlaying g); exact Hsame.
  - destruct (find_timer h (gameTimers g)) as [tm |]; [| exact Hsame].
    destruct (callback tm). apply Hplay.
Qed.

(** ** Further properties of the country page *)

Lemma Forall_filter {A : Type} (P : A -> Prop) (f : A -> bool) (l : list A) :
  Forall P l -> Forall P (filter f l).
Proof.
  rewrite !Forall_forall. intros Hall x Hx.
  apply filter_In in Hx. apply Hall, Hx.
Qed.

Lemma active_after_remove {C : Type} (h : option Z) (t : Timers C) :
  incl (active (remove_interval h t)) (active t) /\
  next_handle (remove_interval h t) = next_handle t.
Proof.
  destruct h as [n |]; cbn; split; try reflexivity.
  - intros x Hx. apply filter_In in Hx. apply Hx.
  - apply incl_refl.
Qed.

Lemma handles_inv_start `{CountryEnv} (n : number) (p : CountryPage) :
  handles_inv p -> handles_inv (fst (startPopulationCounter n p)).
Proof.
  intros [Hfresh Hstored]. unfold startPopulationCounter. cbn [fst].
  set (t1 := if truthy_handle (populationInterval p)
             then remove_interval (populationInterval p) (countryTimers p)
             else countryTimers p).
  assert (Hsub : incl (active t1) (active (countryTimers p))
                 /\ next_handle t1 = next_handle (countryTimers p)).
  { subst t1. destruct (truthy_handle (populationInterval p));
      [apply active_after_remove | split; [apply incl_refl | reflexivity]]. }
  destruct Hsub as [Hincl Hnext].
  assert (Hfresh1 : Forall (fun t => handle t < next_handle t1) (active t1)).
  { rewrite Hnext. rewrite Forall_forall in *. intros x Hx.
    apply Hfresh, Hincl, Hx. }
  unfold handles_inv.
  cbn [countryTimers populationInterval add_interval next_handle active].
  split.
  - apply Forall_app. split.
    + eapply Forall_impl; [| exact Hfresh1]. cbn. intros a Ha. lia.
    + constructor; [cbn; lia | constructor].
  - intros h Hh. inversion Hh; subst h. split; [lia |].
    apply Forall_app. split.
    + eapply Forall_impl; [| exact Hfresh1]. cbn. intros a Ha Heq. lia.
    + constructor; [reflexivity | constructor].
Qed.

Lemma handles_inv_step `{CountryEnv} (e : CountryEvent) (p : CountryPage) :
  handles_inv p -> handles_inv (fst (countryStep e p)).
Proof.
  intros Hinv. pose proof Hinv as [Hfresh Hstored].
  destruct e as [| countryName | h |]; cbn [countryStep].
  - unfold countryLoaded, handles_inv.
    cbn [fst countryTimers populationInterval add_interval next_handle
         active].
    split.
    + apply Forall_app. split.
      * eapply Forall_impl; [| exact Hfresh]. cbn. intros a Ha. lia.
      * constructor; [cbn; lia | constructor].
    + intros h Hh. destruct (Hstored h Hh) as [Hlt Hkind].
      split; [lia |]. apply Forall_app. split; [exact Hkind |].
      constructor; [cbn; intros Heq; lia | constructor].
  - unfold selectCountry.
    destruct (find _ countriesData) as [c |]; [| exact Hinv].
    destruct (coordinates c); [| exact Hinv].
    pose proof (handles_inv_start (population c) p Hinv) as Hq.
    destruct (startPopulationCounter (population c) p) as [p' effs].
    exact Hq.
  - destruct (find_timer h (countryTimers p)) as [tm |]; [| exact Hinv].
    destruct (callback tm); exact Hinv.
  - unfold countryUnload.
    destruct (truthy_handle (populationInterval p)); [| exact Hinv].
    unfold handles_inv. cbn [fst countryTimers populationInterval].
    destruct (active_after_remove (populationInterval p) (countryTimers p))
      as [Hincl Hnext].
    rewrite Hnext. split.
    + rewrite Forall_forall in *. intros x Hx. apply Hfresh, Hincl, Hx.
    + intros h Hh. destruct (Hstored h Hh) as [Hlt Hkind].
      split; [exact Hlt |].
      rewrite Forall_forall in *. intros x Hx. apply Hkind, Hincl, Hx.
Qed.

Lemma handles_inv_run `{CountryEnv} (evs : list CountryEvent)
  (p : CountryPage) :
  handles_inv p -> handles_inv (countryRun evs p).
Proof.
  revert p. induction evs as [| e evs IH]; intros p Hinv; [exact Hinv |].
  cbn [countryRun]. apply IH. now apply handles_inv_step.
Qed.

Lemma handles_inv_page0 `{CountryEnv} : handles_inv countryPage0.
Proof.
  unfold handles_inv. cbn. split; [constructor | discriminate].
Qed.

Lemma crypto_kept_by_remove `{CountryEnv} (p : CountryPage) :
  handles_inv p ->
  incl (cryptoTimers p)
       (filter (fun t => negb (is_population t))
               (active (remove_interval (populationInterval p)
                                        (countryTimers p)))).
Proof.
  intros [_ Hstored] t Ht. unfold cryptoTimers in Ht.
  apply filter_In in Ht as [Hin Hkind]. apply filter_In.
  split; [| exact Hkind].
  destruct (populationInterval p) as [h |] eqn:Hh; [| exact Hin].
  cbn [remove_interval active]. apply filter_In. split; [exact Hin |].
  destruct (Hstored h eq_refl) as [_ Hpop].
  rewrite Forall_forall in Hpop. specialize (Hpop t Hin).
  destruct (Z.eqb_spec (handle t) h) as [Heq | Hneq]; [| reflexivity].
  unfold is_population in Hkind. rewrite (Hpop Heq) in Hkind.
  discriminate Hkind.
Qed.

Lemma crypto_kept_by_step `{CountryEnv} (e : CountryEvent)
  (p : CountryPage) :
  handles_inv p ->
  incl (cryptoTimers p) (cryptoTimers (fst (countryStep e p))).
Proof.
  intros Hinv.
  destruct e as [| countryName | h |]; cbn [countryStep].
  - unfold countryLoaded, cryptoTimers.
    cbn [fst countryTimers add_interval active]. rewrite filter_app.
    apply incl_appl, incl_refl.
  - unfold selectCountry.
    destruct (find _ countriesData) as [c |]; [| apply incl_refl].
    destruct (coordinates c); [| apply incl_refl].
    assert (Hstart : incl (cryptoTimers p)
              (cryptoTimers (fst (startPopulationCounter (population c) p)))).
    { unfold startPopulationCounter, cryptoTimers at 2.
      cbn [fst countryTimers add_interval active]. rewrite filter_app.
      apply incl_appl.
      destruct (truthy_handle (populationInterval p));
        [now apply crypto_kept_by_remove | apply incl_refl]. }
    destruct (startPopulationCounter (population c) p) as [p' effs].
    exact Hstart.
  - destruct (find_timer h (countryTimers p)) as [tm |]; [| apply incl_refl].
    destruct (callback tm); apply incl_refl.
  - unfold countryUnload.
    destruct (truthy_handle (populationInterval p)); [| apply incl_refl].
    unfold cryptoTimers at 2. cbn [fst countryTimers].
    now apply crypto_kept_by_remove.
Qed.

(** X20: nothing ever cancels the refresh of the cryptocurrency rates:
    along every sequence of events, a registered refresh timer stays
    registered whatever follows; neither a restart of the population
    counter nor the unload handler, which clear by handle, removes it.
    In particular the 60-second timer registered when the page loads is
    still registered after any later events. *)
Theorem crypto_refresh_never_cancelled :
  forall (env : CountryEnv) (evs later : list CountryEvent),
    let p := countryRun evs countryPage0 in
    incl (cryptoTimers p) (cryptoTimers (countryRun later p)) /\
    In {| handle := next_handle (countryTimers p);
          callback := LoadCryptocurrencyRates; delay := 60000 |}
       (cryptoTimers (countryRun (DOMContentLoaded :: later) p)).
Proof.
  intros env evs later p.
  assert (Hinv : handles_inv p)
    by (apply handles_inv_run, handles_inv_page0).
  assert (Hkept : forall l q, handles_inv q ->
             incl (cryptoTimers q) (cryptoTimers (countryRun l q))).
  { induction l as [| e l IH]; intros q Hq; [apply incl_refl |].
    cbn [countryRun].
    eapply incl_tran; [apply crypto_kept_by_step; exact Hq |].
    apply IH. now apply handles_inv_step. }
  split; [apply Hkept; exact Hinv |].
  cbn [countryRun countryStep].
  apply Hkept; [apply (handles_inv_step DOMContentLoaded p Hinv) |].
  unfold countryLoaded, cryptoTimers.
  cbn [fst countryTimers add_interval active]. rewrite filter_app.
  apply in_or_app. right. left. reflexivity.
Qed.

Lemma find_none_iff {A : Type} (f : A -> bool) (l : list A) :
  find f l = None <-> Forall (fun x => f x = false) l.
Proof.
  induction l as [| a l IH]; cbn.
  - split; [constructor | reflexivity].
  - destruct (f a) eqn:Hfa.
    + split; [discriminate |]. intros Hall. inversion Hall. congruence.
    + rewrite IH. split; [now constructor | intros Hall; now inversion Hall].
Qed.

Lemma find_first {A : Type} (f : A -> bool) (pre post : list A) (c : A) :
  Forall (fun x => f x = false) pre -> f c = true ->
  find f (pre ++ c :: post) = Some c.
Proof.
  intros Hpre Hc. induction Hpre as [| a pre Ha _ IH]; cbn.
  - now rewrite Hc.
  - now rewrite Ha.
Qed.

(** X21: selecting a name that no table entry carries only logs
    "Country not found": the page, its timers included, is unchanged and
    no request is sent.  Selecting a name that entries carry takes the
    first such entry and requests its flag.  When that entry has a
    coordinates string, the counter restarts at the entry's population,
    which is shown at once, and [populationInterval] holds the new
    timer's handle.  When it has none, the handler ends in
    [loadCountryMap]: the counter is not restarted and the page, its
    timers included, is unchanged. *)
Theorem selectCountry_takes_first_match :
  forall (env : CountryEnv) (countryName : string) (p : CountryPage),
    (Forall (fun c => country c <> countryName) countriesData ->
       selectCountry countryName p
       = (p, [CountryConsoleError "Country not found:" countryName])) /\
    (forall pre c post,
        countriesData = (pre ++ c :: post)%list ->
        Forall (fun c' => country c' <> countryName) pre ->
        country c = countryName ->
        match coordinates c with
        | Some _ =>
            currentPopulation (fst (selectCountry countryName p))
            = population c /\
            In (ShowPopulation (population c))
               (snd (selectCountry countryName p)) /\
            In (FetchFlag countryName) (snd (selectCountry countryName p)) /\
            populationInterval (fst (selectCountry countryName p))
            = Some (next_handle (countryTimers p))
        | None =>
            selectCountry countryName p = (p, [FetchFlag countryName])
        end).
Proof.
  intros env countryName p. split.
  - intros Hnone. unfold selectCountry.
    assert (Hfind : find (fun c => country c === countryName) countriesData
                    = None).
    { apply find_none_iff. eapply Forall_impl; [| exact Hnone].
      cbn. intros c Hc. now apply String.eqb_neq. }
    rewrite Hfind. reflexivity.
  - intros pre c post Hdata Hpre Hc. unfold selectCountry.
    assert (Hfind : find (fun c => country c === countryName) countriesData
                    = Some c).
    { rewrite Hdata. apply find_first.
      - eapply Forall_impl; [| exact Hpre]. cbn. intros c' Hc'.
        now apply String.eqb_neq.
      - now apply String.eqb_eq. }
    rewrite Hfind. rewrite Hc.
    destruct (coordinates c) as [coords |]; [| reflexivity].
    unfold startPopulationCounter. cbn [fst snd].
    split; [reflexivity | split; [| split]].
    + right. apply in_or_app. right. left. reflexivity.
    + left. reflexivity.
    + destruct (truthy_handle (populationInterval p));
        [| reflexivity].
      destruct (populationInterval p); reflexivity.
Qed.

Lemma selectCountry_takes_first_match_witness :
  let p := countryRun (H := sample_env) [DOMContentLoaded] countryPage0 in
  (Forall (fun c => country c <> "Atlantis")
          (countriesData (CountryEnv := sample_env)) /\
   selectCountry (H := sample_env) "Atlantis" p
   = (p, [CountryConsoleError "Country not found:" "Atlantis"])) /\
  currentPopulation (fst (selectCountry (H := sample_env) "Chile" p))
  = 19000000 /\
  selectCountry (H := sample_env) "Peru" p = (p, [FetchFlag "Peru"]).
Proof.
  intros p.
  destruct (selectCountry_takes_first_match sample_env "Atlantis" p)
    as [Hunknown _].
  destruct (selectCountry_takes_first_match sample_env "Chile" p)
    as [_ Hchile].
  destruct (selectCountry_takes_first_match sample_env "Peru" p)
    as [_ Hperu].
  assert (Hnone : Forall (fun c => country c <> "Atlantis")
                         (countriesData (CountryEnv := sample_env)))
    by (repeat constructor; discriminate).
  assert (Hpre : Forall (fun c : Country Z => country c <> "Peru")
                        [{| country := "Chile";
                            coordinates := Some "33 27 S, 70 40 W";
                            population := 19000000 |}])
    by (repeat constructor; discriminate).
  split; [split; [exact Hnone | exact (Hunknown Hnone)] |].
  split.
  - exact (proj1 (Hchile []
                    {| country := "Chile";
                       coordinates := Some "33 27 S, 70 40 W";
                       population := 19000000 |}
                    [{| country := "Peru"; coordinates := None;
                        population := 33000000 |};
                     {| country := "Chile"; coordinates := None;
                        population := 1 |}]
                    eq_refl (Forall_nil _) eq_refl)).
  - exact (Hperu [{| country := "Chile";
                     coordinates := Some "33 27 S, 70 40 W";
                     population := 19000000 |}]
                 {| country := "Peru"; coordinates := None;
                    population := 33000000 |}
                 [{| country := "Chile"; coordinates := None;
                     population := 1 |}]
                 eq_refl Hpre eq_refl).
Defined.

Lemma find_new_handle {C : Type} (l : list (Timer C)) (t : Timer C) :
  Forall (fun x => handle x < handle t) l ->
  find (fun x => handle x =? handle t) (l ++ [t]) = Some t.
Proof.
  intros Hless. induction Hless as [| a l Ha _ IH]; cbn.
  - now rewrite Z.eqb_refl.
  - destruct (Z.eqb_spec (handle a) (handle t)); [lia | exact IH].
Qed.

Lemma population_ticks `{CountryEnv} (h : Z) (k : nat) (q : CountryPage)
  (tm : Timer CountryCallback) :
  find_timer h (countryTimers q) = Some tm ->
  callback tm = PopulationTick ->
  currentPopulation (countryRun (firings h k) q)
  = Nat.iter k grow (currentPopulation q) /\
  countryTimers (countryRun (firings h k) q) = countryTimers q /\
  populationInterval (countryRun (firings h k) q) = populationInterval q.
Proof.
  intros Hfind Hkind. revert q Hfind.
  induction k as [| k IH]; intros q Hfind; [repeat split |].
  unfold firings. cbn [repeat countryRun countryStep].
  rewrite Hfind, Hkind. cbn [runCallback fst].
  fold (firings h k).
  set (q' := {| populationInterval := populationInterval q;
                currentPopulation := grow (currentPopulation q);
                countryTimers := countryTimers q |}).
  destruct (IH q' Hfind) as (Hpop & Htimers & Hid).
  rewrite Hpop, Htimers, Hid. cbn [q' currentPopulation countryTimers
                                   populationInterval].
  split; [| split; reflexivity].
  rewrite Nat.iter_succ_r. reflexivity.
Qed.

(** X22: once the population counter has been started at [n] on a
    reachable page, [k] firings of its timer leave the population at [n]
    grown [k] times, one growth step per firing, and leave the timer
    registered. *)
Theorem population_grows_once_per_tick :
  forall (env : CountryEnv) (evs : list CountryEvent) (n : number)
         (k : nat),
    let p := countryRun evs countryPage0 in
    let p1 := fst (startPopulationCounter n p) in
    let after := countryRun (firings (next_handle (countryTimers p)) k) p1 in
    currentPopulation after = Nat.iter k grow n /\
    populationTimers after = [new_population_timer p].
Proof.
  intros env evs n k p p1 after.
  assert (Hinv : handles_inv p)
    by (apply handles_inv_run, handles_inv_page0).
  assert (Hpinv : population_inv p)
    by (apply population_inv_run, population_inv_page0).
  destruct Hinv as [Hfresh _].
  set (t1 := if truthy_handle (populationInterval p)
             then remove_interval (populationInterval p) (countryTimers p)
             else countryTimers p).
  assert (Hsub : incl (active t1) (active (countryTimers p))
                 /\ next_handle t1 = next_handle (countryTimers p)).
  { subst t1. destruct (truthy_handle (populationInterval p));
      [apply active_after_remove | split; [apply incl_refl | reflexivity]]. }
  destruct Hsub as [Hincl Hnext].
  assert (Hfind : find_timer (next_handle (countryTimers p))
                    (countryTimers p1)
                  = Some (new_population_timer p)).
  { subst p1. unfold startPopulationCounter. cbn [fst countryTimers].
    fold t1. unfold find_timer, add_interval. cbn [active].
    rewrite Hnext.
    apply (find_new_handle (active t1) (new_population_timer p)).
    cbn [new_population_timer handle].
    rewrite Forall_forall in *. intros x Hx. apply Hfresh, Hincl, Hx. }
  destruct (population_ticks _ k p1 _ Hfind eq_refl)
    as (Hpop & Htimers & _).
  split.
  - subst after. rewrite Hpop. reflexivity.
  - subst after. unfold populationTimers. rewrite Htimers.
    destruct (startPopulationCounter_one n p Hpinv)
      as (_ & t & Hone & _).
    fold p1 in Hone. unfold populationTimers in Hone.
    rewrite Hone.
    assert (Hin : In (new_population_timer p)
                     (filter is_population (active (countryTimers p1)))).
    { apply filter_In. split; [| reflexivity].
      unfold find_timer in Hfind. apply find_some in Hfind. apply Hfind. }
    rewrite Hone in Hin. destruct Hin as [<- | []]. reflexivity.
Qed.

(** ** Edge cases of upload and submission *)





(** X24: an upload answered with 2xx JSON carrying the upload handle
    [u].  When the answer also carries the dimensions (photo) or the
    resolution (video), the handler stores [u], enables the panel's
    submit buttons, shows exactly one toast, the success toast, and sends
    nothing; it leaves the stored job handles and the polling loop as
    they were, and a submission of that panel clicked next sends its
    request with [u].  When the answer lacks them, reading their width
    throws after [u] was stored: the handler shows the message of the
    thrown error in a toast and resets the panel, so that no upload or
    job handle is left, the button is disabled, and a submission clicked
    next is refused. *)
Theorem successful_upload_enables_submission :
  forall (a : UploadAnswer) (s : Submission) (form : ResizeForm)
         (u : string) (p : Page),
    panel_of s = answer_kind a ->
    answer_upload_id a = Some u ->
    u <> "" ->
    let m := upload_answered a in
    match answer_size a with
    | Sized _ _ =>
        upload_handle s (page_after m p) = Some u /\
        button_disabled s (page_after m p) = false /\
        List.filter is_toast (effects_of m p)
        = [Toast (upload_success_message (answer_kind a)) "success" 5000] /\
        existsb is_network (effects_of m p) = false /\
        (forall s', stored_job s' (page_after m p) = stored_job s' p) /\
        polling_loops (page_after m p) = polling_loops p /\
        exists body,
          effects_of (submission_click s form) (page_after m p)
          = [Fetch "POST" (submit_url s) body] /\
          body_upload_id body = Some u
    | Unsized thrown =>
        upload_handle s (page_after m p) = None /\
        stored_job s (page_after m p) = None /\
        button_disabled s (page_after m p) = true /\
        List.filter is_toast (effects_of m p)
        = Toast (if thrown === ""
                 then "Failed to " ++ upload_context (answer_kind a)
                        ++ ". Please try again."
                 else thrown) "error" 5000
            :: match answer_kind a with
               | Image => [Toast "Effects reset to default" "info" 2000]
               | Video => []
               end /\
        existsb is_network (effects_of m p) = false /\
        effects_of (submission_click s form) (page_after m p)
        = [Toast (upload_first_message s) "error" 5000]
    end.
Proof.
  intros a s form u p Hpanel Hu Hne m. subst m.
  pose proof (truthy_Some _ Hne) as Htruthy.
  destruct p as [ps pe vs ve tm]. destruct ps as [pu pj pf pfx].
  destruct vs as [vu j f md op res q rm spi].
  unfold polling_loops.
  destruct a as [[uid dims] | [uid dur resol sz]]; cbn in Hu; subst uid;
    destruct s; try discriminate Hpanel;
    cbn [answer_size answer_kind upload_answered dimensions resolution
         upload_handle button_disabled stored_job submission_click
         submit_url upload_success_message upload_first_message].
  all: match goal with
       | |- match ?d with Sized _ _ => _ | Unsized _ => _ end => destruct d
       end.
  all: destruct spi as [z |].
  all: eval_handlers; photo_fields;
    cbn [photo_upload_id video_upload_id dimensions resolution];
    try match goal with
        | |- context [?n =? 0] => destruct (n =? 0)
        end;
    eval_handlers; photo_fields; rewrite ?Htruthy;
    eval_handlers; photo_fields; cbn [negb].
  all: repeat (split; [first [reflexivity
                            | intros s'; destruct s'; reflexivity] |]).
  all: first [reflexivity | eexists; split; reflexivity].
Qed.

Lemma successful_upload_enables_submission_witness :
  let complete := PhotoAnswer {| photo_upload_id := Some "U7";
                                 dimensions := Sized 800 600 |} in
  let partial := VideoAnswer {| video_upload_id := Some "U8";
                                duration := 3;
                                resolution := Unsized undefined_width_message;
                                size := 2048 |} in
  (panel_of PhotoProcess = answer_kind complete /\
   answer_upload_id complete = Some "U7" /\ "U7" <> "" /\
   upload_handle PhotoProcess (page_after (upload_answered complete) page0)
   = Some "U7") /\
  (panel_of VideoUpscale = answer_kind partial /\
   answer_upload_id partial = Some "U8" /\ "U8" <> "" /\
   upload_handle VideoUpscale (page_after (upload_answered partial) page0)
   = None /\
   List.filter is_toast (effects_of (upload_answered partial) page0)
   = [Toast "Cannot read properties of undefined (reading 'width')"
        "error" 5000]).
Proof.
  intros complete partial.
  assert (Hne7 : "U7" <> "") by discriminate.
  assert (Hne8 : "U8" <> "") by discriminate.
  split.
  - split; [reflexivity | split; [reflexivity | split; [exact Hne7 |]]].
    exact (proj1 (successful_upload_enables_submission complete PhotoProcess
                    sample_form "U7" page0 eq_refl eq_refl Hne7)).
  - split; [reflexivity | split; [reflexivity | split; [exact Hne8 |]]].
    pose proof (successful_upload_enables_submission partial VideoUpscale
                  sample_form "U8" page0 eq_refl eq_refl Hne8) as Hall.
    split; [exact (proj1 Hall) |].
    exact (proj1 (proj2 (proj2 (proj2 Hall)))).
Defined.
